(** * Pixel Plant personality engine: escalation, selection and learning

    A shallow embedding of [firmware/pixel_plant/src/personality/
    personality_engine.{h,cpp}] and of the constants of [config.h] it uses,
    followed by the properties of the care-level state machine, the message
    selector, the preference learner and the message queue.

    Modelling conventions.
    - The firmware targets the ESP32-S3: [unsigned long] is 32 bits wide and
      wraps, [float] is IEEE-754 binary32 and [double] binary64, with
      round-to-nearest-even.  Both formats are taken from the Standard
      Library's executable specification [SpecFloat]; an expression such as
      [score += 0.4] is evaluated the way C++ does it: the [float] is
      promoted to [double], the sum is rounded to [double], and the result is
      rounded again when stored into the [float].
    - [int] counters ([useCount], [consecutiveIgnored]) are integers in [Z];
      signed overflow (undefined in C++, and 2^31 increments away) is not
      modelled.
    - [millis()] is an input: every member function that reads the clock
      takes the value [now] it reads, once per call.
    - [Logger::info] output is not part of the state and is left out.
    - The engine object is a record that every member function takes and
      returns; a [PersonalityMessage*] into a partition is the index of the
      message in that partition. *)

From Stdlib Require Import ZArith Lia Bool String Ascii.
From Stdlib Require Import Floats.SpecFloat.
From stdpp Require Import base list.

Local Open Scope Z_scope.

(** ** Machine arithmetic *)

Module Num.

(** [unsigned long]: 32 bits, arithmetic modulo 2^32. *)
Definition ULONG_MODULUS : Z := 2 ^ 32.
Definition ulong_sub (a b : Z) : Z := (a - b) mod ULONG_MODULUS.

(** [double] is binary64 and [float] binary32; both are [spec_float]
    values, canonical for their own format. *)
Definition double : Type := spec_float.
Definition float : Type := spec_float.

Definition dbl_prec : Z := 53.
Definition dbl_emax : Z := 1024.
Definition flt_prec : Z := 24.
Definition flt_emax : Z := 128.

(** Conversion of an integer that is exactly representable
    ([unsigned long] or [int] to [double]). *)
Definition dbl_of_Z (z : Z) : double :=
  binary_normalize dbl_prec dbl_emax z 0 false.

Definition dbl_add (x y : double) : double := SFadd dbl_prec dbl_emax x y.
Definition dbl_sub (x y : double) : double := SFsub dbl_prec dbl_emax x y.
Definition dbl_mul (x y : double) : double := SFmul dbl_prec dbl_emax x y.
Definition dbl_div (x y : double) : double := SFdiv dbl_prec dbl_emax x y.

(** [float * float] stays in binary32. *)
Definition flt_mul (x y : float) : float := SFmul flt_prec flt_emax x y.

(** A decimal literal [n/d] (such as [0.4] = 4/10) denotes the double
    nearest to the quotient, which is what the correctly rounded division
    of the two exactly representable integers returns. *)
Definition decimal (n d : Z) : double := dbl_div (dbl_of_Z n) (dbl_of_Z d).

(** Promotion [float -> double] (exact) and conversion [double -> float]
    (rounding). *)
Definition to_double (x : float) : double :=
  match x with
  | S754_finite s m e => binary_round dbl_prec dbl_emax s m e
  | _ => x
  end.

Definition to_float (x : double) : float :=
  match x with
  | S754_finite s m e => binary_round flt_prec flt_emax s m e
  | _ => x
  end.

(** [f += d] and [f = f + d] for a [float] lvalue and a [double] operand. *)
Definition flt_add_dbl (f : float) (d : double) : float :=
  to_float (dbl_add (to_double f) d).

(** Comparisons; a NaN operand makes every comparison false. *)
Definition sf_gt (x y : spec_float) : bool :=
  match SFcompare x y with Some Gt => true | _ => false end.
Definition sf_lt (x y : spec_float) : bool :=
  match SFcompare x y with Some Lt => true | _ => false end.

Definition flt_gt (x y : float) : bool := sf_gt x y.
Definition flt_gt_dbl (x : float) (y : double) : bool := sf_gt (to_double x) y.
Definition flt_lt_dbl (x : float) (y : double) : bool := sf_lt (to_double x) y.

(** Arduino's [min(a,b)] macro, [((a)<(b)?(a):(b))], at a [float] and a
    [double]; the result has type [double]. *)
Definition min_flt_dbl (a : float) (b : double) : double :=
  if sf_lt (to_double a) b then to_double a else b.

(** A number (not a NaN) whose sign bit is clear: +0, a finite value
    above zero, or +infinity. *)
Definition sign_clear (x : spec_float) : bool :=
  match x with
  | S754_nan => false
  | S754_zero s | S754_infinity s | S754_finite s _ _ => negb s
  end.

Definition is_nan (x : spec_float) : bool :=
  match x with S754_nan => true | _ => false end.

(** A finite value above zero. *)
Definition finite_pos (x : spec_float) : bool :=
  match x with
  | S754_finite false _ _ => true
  | _ => false
  end.

(** The literals of the engine. *)
Definition d0_0 : double := S754_zero false.
Definition d1_0 : double := Eval vm_compute in dbl_of_Z 1.
Definition d10_0 : double := Eval vm_compute in dbl_of_Z 10.
Definition d60000_0 : double := Eval vm_compute in dbl_of_Z 60000.
Definition d0_1 : double := Eval vm_compute in decimal 1 10.
Definition d0_2 : double := Eval vm_compute in decimal 2 10.
Definition d0_3 : double := Eval vm_compute in decimal 3 10.
Definition d0_4 : double := Eval vm_compute in decimal 4 10.
Definition d0_5 : double := Eval vm_compute in decimal 5 10.
Definition d0_7 : double := Eval vm_compute in decimal 7 10.
Definition d0_8 : double := Eval vm_compute in decimal 8 10.
Definition d0_9 : double := Eval vm_compute in decimal 9 10.
Definition dm1_0 : double := Eval vm_compute in dbl_of_Z (-1).

End Num.

Import Num.

(** ** config.h *)

Definition NORMAL_INACTIVITY_THRESHOLD : Z := 30.
Definition CONCERNED_INACTIVITY_THRESHOLD : Z := 60.
Definition URGENT_INACTIVITY_THRESHOLD : Z := 120.
Definition RESPONSE_COOLDOWN : Z := 5000.
Definition LEARNING_RATE : double := d0_1.
Definition CARING_RESPONSE_WARMTH : double := d0_9.

Inductive MoodType : Set :=
| MOOD_HAPPY
| MOOD_CARING
| MOOD_CONCERNED
| MOOD_WORRIED
| MOOD_SLEEPING
| MOOD_CELEBRATING
| MOOD_COUNT.

(** ** personality_engine.h *)

Inductive ResponseType : Set :=
| RESPONSE_GREETING
| RESPONSE_HYDRATION
| RESPONSE_MOVEMENT
| RESPONSE_POSTURE
| RESPONSE_BREAK
| RESPONSE_ENCOURAGEMENT
| RESPONSE_CELEBRATION
| RESPONSE_CONCERN
| RESPONSE_URGENT
| RESPONSE_GOODNIGHT
| RESPONSE_COUNT.

Inductive CareLevel : Set :=
| CARE_GENTLE
| CARE_ENCOURAGING
| CARE_CONCERNED
| CARE_WORRIED
| CARE_COUNT.

#[global] Instance MoodType_eq_dec : EqDecision MoodType.
Proof. solve_decision. Defined.
#[global] Instance ResponseType_eq_dec : EqDecision ResponseType.
Proof. solve_decision. Defined.
#[global] Instance CareLevel_eq_dec : EqDecision CareLevel.
Proof. solve_decision. Defined.

(** The enumerator values. *)
Definition ResponseType_to_nat (t : ResponseType) : nat :=
  match t with
  | RESPONSE_GREETING => 0
  | RESPONSE_HYDRATION => 1
  | RESPONSE_MOVEMENT => 2
  | RESPONSE_POSTURE => 3
  | RESPONSE_BREAK => 4
  | RESPONSE_ENCOURAGEMENT => 5
  | RESPONSE_CELEBRATION => 6
  | RESPONSE_CONCERN => 7
  | RESPONSE_URGENT => 8
  | RESPONSE_GOODNIGHT => 9
  | RESPONSE_COUNT => 10
  end.

Definition CareLevel_to_Z (c : CareLevel) : Z :=
  match c with
  | CARE_GENTLE => 0
  | CARE_ENCOURAGING => 1
  | CARE_CONCERNED => 2
  | CARE_WORRIED => 3
  | CARE_COUNT => 4
  end.

(** The cast [(CareLevel)(n)].  The engine only casts values it has checked
    to lie between [CARE_GENTLE] and [CARE_WORRIED]; any other integer is
    sent to the sentinel. *)
Definition CareLevel_of_Z (n : Z) : CareLevel :=
  match n with
  | 0 => CARE_GENTLE
  | 1 => CARE_ENCOURAGING
  | 2 => CARE_CONCERNED
  | 3 => CARE_WORRIED
  | _ => CARE_COUNT
  end.

Record PersonalityMessage : Type := mkMessage {
  text : string;
  mood : MoodType;
  careLevel : CareLevel;
  timestamp : Z;          (* unsigned long *)
  useCount : Z            (* int *)
}.

Record InteractionHistory : Type := mkHistory {
  lastResponseType : ResponseType;
  lastResponseTime : Z;   (* unsigned long *)
  userResponded : bool;
  consecutiveIgnored : Z; (* int *)
  responseEffectiveness : float
}.

(** [struct BehaviorData] of behavior_monitor.h, restricted to the fields
    the personality engine reads. *)
Record BehaviorData : Type := mkBehavior {
  inactivityMinutes : Z;  (* unsigned long *)
  needsHydration : bool;
  needsMovement : bool;
  needsPostureAdjustment : bool;
  needsBreak : bool;
  needsSupport : bool;
  hasPositiveBehavior : bool
}.

(** The data members of [class PersonalityEngine]. *)
Record PersonalityEngine : Type := mkEngine {
  currentMood : MoodType;
  currentCareLevel : CareLevel;
  caringIntensity : float;
  personalityWarmth : float;
  messageBank : list (list PersonalityMessage);  (* [RESPONSE_COUNT] vectors *)
  messageQueue : list string;
  lastMessageTime : Z;
  history : InteractionHistory;
  userName : string;
  userPreferences : list float;                  (* [RESPONSE_COUNT] floats *)
  learningEnabled : bool;
  adaptationRate : float;
  learningStartTime : Z;
  responseCooldown : Z;
  canRespond : bool
}.

(** Assignment to one data member. *)
Definition set_currentMood (v : MoodType) (e : PersonalityEngine) : PersonalityEngine :=
  mkEngine v (currentCareLevel e) (caringIntensity e) (personalityWarmth e)
    (messageBank e) (messageQueue e) (lastMessageTime e) (history e) (userName e)
    (userPreferences e) (learningEnabled e) (adaptationRate e) (learningStartTime e)
    (responseCooldown e) (canRespond e).

Definition set_currentCareLevel (v : CareLevel) (e : PersonalityEngine) : PersonalityEngine :=
  mkEngine (currentMood e) v (caringIntensity e) (personalityWarmth e)
    (messageBank e) (messageQueue e) (lastMessageTime e) (history e) (userName e)
    (userPreferences e) (learningEnabled e) (adaptationRate e) (learningStartTime e)
    (responseCooldown e) (canRespond e).

Definition set_caringIntensity (v : float) (e : PersonalityEngine) : PersonalityEngine :=
  mkEngine (currentMood e) (currentCareLevel e) v (personalityWarmth e)
    (messageBank e) (messageQueue e) (lastMessageTime e) (history e) (userName e)
    (userPreferences e) (learningEnabled e) (adaptationRate e) (learningStartTime e)
    (responseCooldown e) (canRespond e).

Definition set_messageBank (v : list (list PersonalityMessage)) (e : PersonalityEngine)
  : PersonalityEngine :=
  mkEngine (currentMood e) (currentCareLevel e) (caringIntensity e) (personalityWarmth e)
    v (messageQueue e) (lastMessageTime e) (history e) (userName e)
    (userPreferences e) (learningEnabled e) (adaptationRate e) (learningStartTime e)
    (responseCooldown e) (canRespond e).

Definition set_messageQueue (v : list string) (e : PersonalityEngine) : PersonalityEngine :=
  mkEngine (currentMood e) (currentCareLevel e) (caringIntensity e) (personalityWarmth e)
    (messageBank e) v (lastMessageTime e) (history e) (userName e)
    (userPreferences e) (learningEnabled e) (adaptationRate e) (learningStartTime e)
    (responseCooldown e) (canRespond e).

Definition set_lastMessageTime (v : Z) (e : PersonalityEngine) : PersonalityEngine :=
  mkEngine (currentMood e) (currentCareLevel e) (caringIntensity e) (personalityWarmth e)
    (messageBank e) (messageQueue e) v (history e) (userName e)
    (userPreferences e) (learningEnabled e) (adaptationRate e) (learningStartTime e)
    (responseCooldown e) (canRespond e).

Definition set_history (v : InteractionHistory) (e : PersonalityEngine) : PersonalityEngine :=
  mkEngine (currentMood e) (currentCareLevel e) (caringIntensity e) (personalityWarmth e)
    (messageBank e) (messageQueue e) (lastMessageTime e) v (userName e)
    (userPreferences e) (learningEnabled e) (adaptationRate e) (learningStartTime e)
    (responseCooldown e) (canRespond e).

Definition set_userName (v : string) (e : PersonalityEngine) : PersonalityEngine :=
  mkEngine (currentMood e) (currentCareLevel e) (caringIntensity e) (personalityWarmth e)
    (messageBank e) (messageQueue e) (lastMessageTime e) (history e) v
    (userPreferences e) (learningEnabled e) (adaptationRate e) (learningStartTime e)
    (responseCooldown e) (canRespond e).

Definition set_userPreferences (v : list float) (e : PersonalityEngine) : PersonalityEngine :=
  mkEngine (currentMood e) (currentCareLevel e) (caringIntensity e) (personalityWarmth e)
    (messageBank e) (messageQueue e) (lastMessageTime e) (history e) (userName e)
    v (learningEnabled e) (adaptationRate e) (learningStartTime e)
    (responseCooldown e) (canRespond e).

Definition set_learningEnabled (v : bool) (e : PersonalityEngine) : PersonalityEngine :=
  mkEngine (currentMood e) (currentCareLevel e) (caringIntensity e) (personalityWarmth e)
    (messageBank e) (messageQueue e) (lastMessageTime e) (history e) (userName e)
    (userPreferences e) v (adaptationRate e) (learningStartTime e)
    (responseCooldown e) (canRespond e).

Definition set_adaptationRate (v : float) (e : PersonalityEngine) : PersonalityEngine :=
  mkEngine (currentMood e) (currentCareLevel e) (caringIntensity e) (personalityWarmth e)
    (messageBank e) (messageQueue e) (lastMessageTime e) (history e) (userName e)
    (userPreferences e) (learningEnabled e) v (learningStartTime e)
    (responseCooldown e) (canRespond e).

Definition set_learningStartTime (v : Z) (e : PersonalityEngine) : PersonalityEngine :=
  mkEngine (currentMood e) (currentCareLevel e) (caringIntensity e) (personalityWarmth e)
    (messageBank e) (messageQueue e) (lastMessageTime e) (history e) (userName e)
    (userPreferences e) (learningEnabled e) (adaptationRate e) v
    (responseCooldown e) (canRespond e).

Definition set_canRespond (v : bool) (e : PersonalityEngine) : PersonalityEngine :=
  mkEngine (currentMood e) (currentCareLevel e) (caringIntensity e) (personalityWarmth e)
    (messageBank e) (messageQueue e) (lastMessageTime e) (history e) (userName e)
    (userPreferences e) (learningEnabled e) (adaptationRate e) (learningStartTime e)
    (responseCooldown e) v.

(** ** Construction and the message bank *)

(** [PersonalityEngine::PersonalityEngine()].  The constructor leaves
    [learningStartTime] unset until [initialize]; it is never read, and is
    0 here. *)
Definition PersonalityEngine_ctor : PersonalityEngine :=
  {| currentMood := MOOD_HAPPY;
     currentCareLevel := CARE_GENTLE;
     caringIntensity := to_float CARING_RESPONSE_WARMTH;
     personalityWarmth := to_float CARING_RESPONSE_WARMTH;
     messageBank := replicate (ResponseType_to_nat RESPONSE_COUNT) [];
     messageQueue := [];
     lastMessageTime := 0;
     history := {| lastResponseType := RESPONSE_GREETING;
                   lastResponseTime := 0;
                   userResponded := false;
                   consecutiveIgnored := 0;
                   responseEffectiveness := to_float d0_5 |};
     userName := "friend";
     userPreferences := replicate (ResponseType_to_nat RESPONSE_COUNT) (to_float d0_5);
     learningEnabled := true;
     adaptationRate := to_float LEARNING_RATE;
     learningStartTime := 0;
     responseCooldown := RESPONSE_COOLDOWN;
     canRespond := true |}.

(** [messageBank[type].push_back(...)], for each element of [msgs] in turn. *)
Definition push_back_all (type : ResponseType) (msgs : list PersonalityMessage)
    (e : PersonalityEngine) : PersonalityEngine :=
  set_messageBank
    (alter (fun messages => messages ++ msgs) (ResponseType_to_nat type) (messageBank e)) e.

Definition loadHydrationMessages : PersonalityEngine -> PersonalityEngine :=
  push_back_all RESPONSE_HYDRATION [
    mkMessage "Hey there! You need to hydrate! 💧" MOOD_CARING CARE_GENTLE 0 0;
    mkMessage "Time for some water, {name}! Your body will thank you! 🌿" MOOD_CARING CARE_GENTLE 0 0;
    mkMessage "How about a refreshing drink? Stay hydrated! ✨" MOOD_HAPPY CARE_GENTLE 0 0;
    mkMessage "Your pixel plant thinks you could use some H2O! 💙" MOOD_HAPPY CARE_GENTLE 0 0;
    mkMessage "Thirsty? I bet you are! Take a sip for me! 🥤" MOOD_CARING CARE_GENTLE 0 0;
    mkMessage "I notice you haven't had water in a while. How about it? 💧" MOOD_CARING CARE_ENCOURAGING 0 0;
    mkMessage "Your caring companion reminds you: hydration is self-care! 🌸" MOOD_CARING CARE_ENCOURAGING 0 0;
    mkMessage "Let's keep that energy up with some refreshing water! 🌊" MOOD_CARING CARE_ENCOURAGING 0 0;
    mkMessage "Hey {name}, I'm getting a bit worried about your hydration. Please drink something! 💧" MOOD_CONCERNED CARE_CONCERNED 0 0;
    mkMessage "It's been quite a while since your last drink. Your pixel plant is concerned! 🌿" MOOD_CONCERNED CARE_CONCERNED 0 0;
    mkMessage "Please, {name} - you really need to drink some water now. I'm worried about you! 💧" MOOD_WORRIED CARE_WORRIED 0 0
  ].

Definition loadMovementMessages : PersonalityEngine -> PersonalityEngine :=
  push_back_all RESPONSE_MOVEMENT [
    mkMessage "How about a snack? Take a walk! Stretch it out! 🚶‍♀️" MOOD_CARING CARE_GENTLE 0 0;
    mkMessage "Time to get those muscles moving, {name}! Even a little stretch helps! 🤸‍♀️" MOOD_HAPPY CARE_GENTLE 0 0;
    mkMessage "Your body is asking for some movement! Listen to it! 🌟" MOOD_CARING CARE_GENTLE 0 0;
    mkMessage "Let's get the blood flowing! A quick walk does wonders! 🌈" MOOD_HAPPY CARE_GENTLE 0 0;
    mkMessage "Movement is medicine! How about a little dance? 💃" MOOD_HAPPY CARE_GENTLE 0 0;
    mkMessage "You've been sitting for a while. Your pixel plant suggests a movement break! 🌿" MOOD_CARING CARE_ENCOURAGING 0 0;
    mkMessage "I know you're focused, but your body needs some love too! Stretch time! 🧘‍♀️" MOOD_CARING CARE_ENCOURAGING 0 0;
    mkMessage "Even champions need movement breaks! You've got this! 💪" MOOD_CARING CARE_ENCOURAGING 0 0;
    mkMessage "I'm noticing you've been still for quite some time. Please move around a bit! 🚶‍♂️" MOOD_CONCERNED CARE_CONCERNED 0 0;
    mkMessage "Your caring companion is getting concerned about your posture. Stand up for me? 🌸" MOOD_CONCERNED CARE_CONCERNED 0 0
  ].

Definition loadPostureMessages : PersonalityEngine -> PersonalityEngine :=
  push_back_all RESPONSE_POSTURE [
    mkMessage "Time to adjust that posture! Stretch it out! 🧘" MOOD_CARING CARE_GENTLE 0 0;
    mkMessage "Roll those shoulders back, {name}! Your spine will thank you! 💚" MOOD_CARING CARE_GENTLE 0 0;
    mkMessage "Let's check that posture! Sit up tall like the amazing person you are! ✨" MOOD_HAPPY CARE_GENTLE 0 0;
    mkMessage "Your pixel plant notices some slouching! Time for a posture reset! 🌿" MOOD_CARING CARE_GENTLE 0 0;
    mkMessage "Gentle reminder: your future self will thank you for good posture now! 🙏" MOOD_CARING CARE_ENCOURAGING 0 0
  ].

Definition loadEncouragementMessages : PersonalityEngine -> PersonalityEngine :=
  push_back_all RESPONSE_ENCOURAGEMENT [
    mkMessage "You're doing great! Keep up the amazing work! 🌟" MOOD_HAPPY CARE_GENTLE 0 0;
    mkMessage "Aw, it's not so bad! Give yourself a hug! 🤗" MOOD_CARING CARE_GENTLE 0 0;
    mkMessage "I believe in you, {name}! You've got this! 💪" MOOD_HAPPY CARE_ENCOURAGING 0 0;
    mkMessage "Every small step counts! You're making progress! 🌱" MOOD_CARING CARE_GENTLE 0 0;
    mkMessage "Your pixel plant is proud of your efforts! Keep going! 🌿✨" MOOD_HAPPY CARE_GENTLE 0 0;
    mkMessage "Remember: you're braver than you believe and stronger than you seem! 🦋" MOOD_CARING CARE_ENCOURAGING 0 0;
    mkMessage "Tough moments don't last, but resilient people like you do! 🌈" MOOD_CARING CARE_ENCOURAGING 0 0
  ].

Definition loadCelebrationMessages : PersonalityEngine -> PersonalityEngine :=
  push_back_all RESPONSE_CELEBRATION [
    mkMessage "Wonderful! You took care of yourself! I'm so proud! 🎉" MOOD_CELEBRATING CARE_GENTLE 0 0;
    mkMessage "Yes! That's what I love to see! Great self-care! ✨" MOOD_CELEBRATING CARE_GENTLE 0 0;
    mkMessage "You listened to your body! That's what caring for yourself looks like! 💚" MOOD_HAPPY CARE_GENTLE 0 0;
    mkMessage "Your pixel plant is doing a happy dance! Well done, {name}! 🌿💃" MOOD_CELEBRATING CARE_GENTLE 0 0;
    mkMessage "That's the spirit! Taking care of yourself is beautiful! 🌸" MOOD_HAPPY CARE_GENTLE 0 0
  ].

Definition loadConcernMessages : PersonalityEngine -> PersonalityEngine :=
  push_back_all RESPONSE_CONCERN [
    mkMessage "I'm getting a bit worried about you. Everything okay? 💙" MOOD_CONCERNED CARE_CONCERNED 0 0;
    mkMessage "Your pixel plant is concerned. You matter, and your wellbeing matters! 🌿" MOOD_CONCERNED CARE_CONCERNED 0 0;
    mkMessage "I care about you, {name}. Let's take care of your needs together! 💚" MOOD_CONCERNED CARE_CONCERNED 0 0;
    mkMessage "I'm really worried now. Please take a moment for yourself! 🌸" MOOD_WORRIED CARE_WORRIED 0 0;
    mkMessage "This is your caring companion speaking: you need attention right now! 💛" MOOD_WORRIED CARE_WORRIED 0 0
  ].

Definition loadGreetingMessages : PersonalityEngine -> PersonalityEngine :=
  push_back_all RESPONSE_GREETING [
    mkMessage "Hello there! Your caring companion is here! 🌿✨" MOOD_HAPPY CARE_GENTLE 0 0;
    mkMessage "Good to see you, {name}! Ready to take great care of yourself today? 💚" MOOD_HAPPY CARE_GENTLE 0 0;
    mkMessage "Your pixel plant missed you! Let's have a wonderful day together! 🌸" MOOD_HAPPY CARE_GENTLE 0 0;
    mkMessage "Welcome back! I'm here to help you stay healthy and happy! 🌟" MOOD_HAPPY CARE_GENTLE 0 0
  ].

Definition initializeMessageBank (e : PersonalityEngine) : PersonalityEngine :=
  let e := loadHydrationMessages e in
  let e := loadMovementMessages e in
  let e := loadPostureMessages e in
  let e := loadEncouragementMessages e in
  let e := loadCelebrationMessages e in
  let e := loadConcernMessages e in
  loadGreetingMessages e.

(** [initialize()] (it always returns [true]). *)
Definition initialize (now : Z) (e : PersonalityEngine) : PersonalityEngine :=
  let e := initializeMessageBank e in
  set_learningStartTime now e.

(** ** Strings *)

(** Arduino's [String::replace(find, replace)], which is library code outside
    the repository: every occurrence of [find] is replaced, scanning from
    the left; [skip] counts the characters of a matched occurrence that are
    still to be dropped.  When the replacement is longer than [find] the
    library rewrites its buffer from the right and can then match a [find]
    that is formed partly by text it has just inserted; the two agree on
    texts in which the first character of [find] occurs only at the start of
    an occurrence, as it does in the built-in catalog. *)
Fixpoint replace_from (find repl : string) (skip : nat) (s : string) : string :=
  match s with
  | EmptyString => EmptyString
  | String c rest =>
      match skip with
      | S k => replace_from find repl k rest
      | O =>
          if String.prefix find s
          then String.append repl (replace_from find repl (String.length find - 1) rest)
          else String c (replace_from find repl 0 rest)
      end
  end.

Definition String_replace (find repl s : string) : string :=
  match find with
  | EmptyString => s
  | _ => replace_from find repl 0 s
  end.

Definition String_isEmpty (s : string) : bool :=
  match s with EmptyString => true | _ => false end.

(** ** Member functions *)

Definition personalizeMessage (baseMessage : string) (e : PersonalityEngine) : string :=
  String_replace "{name}" (userName e) baseMessage.

Definition setMood (m : MoodType) (e : PersonalityEngine) : PersonalityEngine :=
  if decide (currentMood e <> m) then set_currentMood m e else e.

Definition setUserName (name : string) (e : PersonalityEngine) : PersonalityEngine :=
  set_userName name e.

Definition enableLearning (enable : bool) (e : PersonalityEngine) : PersonalityEngine :=
  set_learningEnabled enable e.

Definition setAdaptationRate (rate : float) (e : PersonalityEngine) : PersonalityEngine :=
  set_adaptationRate rate e.

Definition enableResponses (enable : bool) (e : PersonalityEngine) : PersonalityEngine :=
  set_canRespond enable e.

Definition getConsecutiveIgnoredCount (e : PersonalityEngine) : Z :=
  consecutiveIgnored (history e).

Definition escalateCareLevel (e : PersonalityEngine) : PersonalityEngine :=
  if CareLevel_to_Z (currentCareLevel e) <? CareLevel_to_Z CARE_WORRIED
  then set_currentCareLevel (CareLevel_of_Z (CareLevel_to_Z (currentCareLevel e) + 1)) e
  else e.

Definition reduceCareLevel (e : PersonalityEngine) : PersonalityEngine :=
  if CareLevel_to_Z CARE_GENTLE <? CareLevel_to_Z (currentCareLevel e)
  then set_currentCareLevel (CareLevel_of_Z (CareLevel_to_Z (currentCareLevel e) - 1)) e
  else e.

Definition canRespondNow (now : Z) (e : PersonalityEngine) : bool :=
  canRespond e && (responseCooldown e <? ulong_sub now (lastMessageTime e)).

(** [PersonalityTraits::behaviorToMood]. *)
Definition behaviorToMood (behavior : BehaviorData) : MoodType :=
  if URGENT_INACTIVITY_THRESHOLD <? inactivityMinutes behavior then MOOD_WORRIED
  else if CONCERNED_INACTIVITY_THRESHOLD <? inactivityMinutes behavior then MOOD_CONCERNED
  else if hasPositiveBehavior behavior then MOOD_CELEBRATING
  else if needsSupport behavior then MOOD_CARING
  else MOOD_HAPPY.

(** [PersonalityTraits::calculateCaringUrgency]. *)
Definition calculateCaringUrgency (behavior : BehaviorData) : float :=
  let urgency : float := to_float d0_0 in
  let urgency :=
    if URGENT_INACTIVITY_THRESHOLD <? inactivityMinutes behavior
    then flt_add_dbl urgency d0_8
    else if CONCERNED_INACTIVITY_THRESHOLD <? inactivityMinutes behavior
    then flt_add_dbl urgency d0_5
    else if NORMAL_INACTIVITY_THRESHOLD <? inactivityMinutes behavior
    then flt_add_dbl urgency d0_3
    else urgency in
  let urgency := if needsHydration behavior then flt_add_dbl urgency d0_3 else urgency in
  let urgency := if needsMovement behavior then flt_add_dbl urgency d0_2 else urgency in
  let urgency :=
    if needsPostureAdjustment behavior then flt_add_dbl urgency d0_1 else urgency in
  to_float (min_flt_dbl urgency d1_0).

Definition updateMood (behavior : BehaviorData) (e : PersonalityEngine) : PersonalityEngine :=
  let newMood := behaviorToMood behavior in
  let e := setMood newMood e in
  let urgency := calculateCaringUrgency behavior in
  let e := set_caringIntensity urgency e in
  if flt_gt_dbl urgency d0_7
     && (CareLevel_to_Z (currentCareLevel e) <? CareLevel_to_Z CARE_WORRIED)
  then escalateCareLevel e
  else if flt_lt_dbl urgency d0_3
          && (CareLevel_to_Z CARE_GENTLE <? CareLevel_to_Z (currentCareLevel e))
  then reduceCareLevel e
  else e.

(** *** The selector *)

(** The score the loop of [selectBestMessage] computes for one message. *)
Definition messageScore (now : Z) (e : PersonalityEngine) (message : PersonalityMessage)
  : float :=
  let score : float := to_float d0_0 in
  let score :=
    if decide (careLevel message = currentCareLevel e)
    then flt_add_dbl score d0_4 else score in
  let score :=
    if decide (mood message = currentMood e)
    then flt_add_dbl score d0_3 else score in
  let timeSinceUse := ulong_sub now (timestamp message) in
  let score :=
    flt_add_dbl score (dbl_mul (dbl_div (dbl_of_Z timeSinceUse) d60000_0) d0_2) in
  let score :=
    flt_add_dbl score
      (dbl_mul (dbl_div d10_0 (dbl_of_Z (useCount message + 1))) d0_1) in
  score.

(** The loop of [selectBestMessage]: [i] is the index of the head of
    [messages] in the partition, [bestMessage] the pointer kept so far. *)
Fixpoint selectLoop (now : Z) (e : PersonalityEngine) (messages : list PersonalityMessage)
    (i : nat) (bestMessage : option (nat * PersonalityMessage)) (bestScore : float)
  : option (nat * PersonalityMessage) :=
  match messages with
  | [] => bestMessage
  | message :: rest =>
      let score := messageScore now e message in
      if flt_gt score bestScore
      then selectLoop now e rest (S i) (Some (i, message)) score
      else selectLoop now e rest (S i) bestMessage bestScore
  end.

(** The partition [messageBank[type]]; the array has [RESPONSE_COUNT]
    slots, and the callers below check the index first. *)
Definition partition (type : ResponseType) (e : PersonalityEngine)
  : list PersonalityMessage :=
  default [] (messageBank e !! ResponseType_to_nat type).

(** [selectBestMessage]: [None] is the null pointer. *)
Definition selectBestMessage (now : Z) (type : ResponseType) (e : PersonalityEngine)
  : option (nat * PersonalityMessage) :=
  if (ResponseType_to_nat RESPONSE_COUNT <=? ResponseType_to_nat type)%nat
     || bool_decide (partition type e = [])
  then None
  else selectLoop now e (partition type e) 0 None (to_float dm1_0).

Definition FALLBACK_MESSAGE : string := "I care about you! 💚".

(** [message->useCount++; message->timestamp = millis();]. *)
Definition markUsed (now : Z) (message : PersonalityMessage) : PersonalityMessage :=
  mkMessage (text message) (mood message) (careLevel message) now (useCount message + 1).

(** [generateCaringResponse(ResponseType)]: the returned [String] and the
    engine afterwards. *)
Definition generateCaringResponse (now : Z) (type : ResponseType) (e : PersonalityEngine)
  : string * PersonalityEngine :=
  if negb (canRespondNow now e) then (EmptyString, e)
  else
    match selectBestMessage now type e with
    | None => (FALLBACK_MESSAGE, e)
    | Some (i, message) =>
        let e :=
          set_messageBank
            (alter (alter (markUsed now) i) (ResponseType_to_nat type) (messageBank e)) e in
        let e := set_lastMessageTime now e in
        let e :=
          set_history
            {| lastResponseType := type;
               lastResponseTime := now;
               userResponded := false;
               consecutiveIgnored := consecutiveIgnored (history e);
               responseEffectiveness := responseEffectiveness (history e) |} e in
        (personalizeMessage (text message) e, e)
    end.

(** [generateCaringResponse()]. *)
Definition generateCaringResponse_default (now : Z) (e : PersonalityEngine)
  : string * PersonalityEngine :=
  generateCaringResponse now RESPONSE_ENCOURAGEMENT e.

Definition generateUrgentResponse (now : Z) (e : PersonalityEngine)
  : string * PersonalityEngine :=
  generateCaringResponse now RESPONSE_CONCERN (escalateCareLevel e).

Definition generateCelebrationMessage (now : Z) (achievement : string)
    (e : PersonalityEngine) : string * PersonalityEngine :=
  let (celebration, e) := generateCaringResponse now RESPONSE_CELEBRATION e in
  (String.append celebration (String.append " " (String.append achievement "! 🎉")), e).

(** *** The queue *)

(** [queueMessage(const String&)]. *)
Definition queueMessage (message : string) (e : PersonalityEngine) : PersonalityEngine :=
  if (length (messageQueue e) <? 10)%nat
  then set_messageQueue (messageQueue e ++ [message]) e
  else e.

(** [queueMessage(ResponseType)]. *)
Definition queueMessage_type (now : Z) (type : ResponseType) (e : PersonalityEngine)
  : PersonalityEngine :=
  let (message, e) := generateCaringResponse now type e in
  if negb (String_isEmpty message) then queueMessage message e else e.

Definition hasQueuedMessage (e : PersonalityEngine) : bool :=
  negb (bool_decide (messageQueue e = [])).

Definition getNextMessage (e : PersonalityEngine) : string * PersonalityEngine :=
  match messageQueue e with
  | [] => (EmptyString, e)
  | message :: rest => (message, set_messageQueue rest e)
  end.

(** *** Feedback and learning *)

Definition adaptToUser (type : ResponseType) (effectiveness : float) (e : PersonalityEngine)
  : PersonalityEngine :=
  if (ResponseType_to_nat type <? ResponseType_to_nat RESPONSE_COUNT)%nat
  then
    set_userPreferences
      (alter
         (fun preference : float =>
            to_float
              (dbl_add
                 (dbl_mul (to_double preference)
                    (dbl_sub d1_0 (to_double (adaptationRate e))))
                 (to_double (flt_mul effectiveness (adaptationRate e)))))
         (ResponseType_to_nat type) (userPreferences e)) e
  else e.

Definition recordUserResponse (responseType : ResponseType) (effective : bool)
    (e : PersonalityEngine) : PersonalityEngine :=
  let e :=
    set_history
      {| lastResponseType := lastResponseType (history e);
         lastResponseTime := lastResponseTime (history e);
         userResponded := true;
         consecutiveIgnored := 0;
         responseEffectiveness := responseEffectiveness (history e) |} e in
  let e :=
    if learningEnabled e
    then adaptToUser responseType (to_float (if effective then d1_0 else d0_0)) e
    else e in
  if effective && (CareLevel_to_Z CARE_GENTLE <? CareLevel_to_Z (currentCareLevel e))
  then reduceCareLevel e
  else e.

Definition recordUserIgnored (responseType : ResponseType) (e : PersonalityEngine)
  : PersonalityEngine :=
  let e :=
    set_history
      {| lastResponseType := lastResponseType (history e);
         lastResponseTime := lastResponseTime (history e);
         userResponded := false;
         consecutiveIgnored := consecutiveIgnored (history e) + 1;
         responseEffectiveness := responseEffectiveness (history e) |} e in
  let e := if learningEnabled e then adaptToUser responseType (to_float d0_2) e else e in
  if (3 <=? consecutiveIgnored (history e))
     && (CareLevel_to_Z (currentCareLevel e) <? CareLevel_to_Z CARE_WORRIED)
  then escalateCareLevel e
  else e.

(** ** Runs of the engine *)

(** One call of a public member function that changes the engine. *)
Inductive EngineCall : Type :=
| CallInitialize (now : Z)
| CallUpdateMood (behavior : BehaviorData)
| CallSetMood (m : MoodType)
| CallRecordUserResponse (responseType : ResponseType) (effective : bool)
| CallRecordUserIgnored (responseType : ResponseType)
| CallGenerateCaringResponse (now : Z) (type : ResponseType)
| CallGenerateUrgentResponse (now : Z)
| CallGenerateCelebrationMessage (now : Z) (achievement : string)
| CallQueueMessage (message : string)
| CallQueueMessageType (now : Z) (type : ResponseType)
| CallGetNextMessage
| CallAdaptToUser (type : ResponseType) (effectiveness : float)
| CallSetUserName (name : string)
| CallEnableLearning (enable : bool)
| CallSetAdaptationRate (rate : float)
| CallEnableResponses (enable : bool).

Definition call (c : EngineCall) (e : PersonalityEngine) : PersonalityEngine :=
  match c with
  | CallInitialize now => initialize now e
  | CallUpdateMood behavior => updateMood behavior e
  | CallSetMood m => setMood m e
  | CallRecordUserResponse responseType effective =>
      recordUserResponse responseType effective e
  | CallRecordUserIgnored responseType => recordUserIgnored responseType e
  | CallGenerateCaringResponse now type => snd (generateCaringResponse now type e)
  | CallGenerateUrgentResponse now => snd (generateUrgentResponse now e)
  | CallGenerateCelebrationMessage now achievement =>
      snd (generateCelebrationMessage now achievement e)
  | CallQueueMessage message => queueMessage message e
  | CallQueueMessageType now type => queueMessage_type now type e
  | CallGetNextMessage => snd (getNextMessage e)
  | CallAdaptToUser type effectiveness => adaptToUser type effectiveness e
  | CallSetUserName name => setUserName name e
  | CallEnableLearning enable => enableLearning enable e
  | CallSetAdaptationRate rate => setAdaptationRate rate e
  | CallEnableResponses enable => enableResponses enable e
  end.

Definition run (calls : list EngineCall) (e : PersonalityEngine) : PersonalityEngine :=
  fold_left (fun e c => call c e) calls e.

(** ** Definitions used by the statements *)

Definition careValue (e : PersonalityEngine) : Z := CareLevel_to_Z (currentCareLevel e).

(** The care level is one of the four levels Gentle..Worried. *)
Definition careInRange (e : PersonalityEngine) : Prop :=
  CareLevel_to_Z CARE_GENTLE <= careValue e <= CareLevel_to_Z CARE_WORRIED.

(** A transition moves the care level by at most one step and keeps it
    between Gentle and Worried. *)
Definition careStep (e e' : PersonalityEngine) : Prop :=
  Z.abs (careValue e' - careValue e) <= 1 /\ careInRange e'.

(** [updateMood] takes its de-escalating branch for this behavior: the
    caring urgency is below 0.3. *)
Definition lowUrgency (behavior : BehaviorData) : bool :=
  flt_lt_dbl (calculateCaringUrgency behavior) d0_3.

(** The calls that can lower the care level. *)
Definition lowersCareLevel (c : EngineCall) : bool :=
  match c with
  | CallRecordUserResponse _ effective => effective
  | CallUpdateMood behavior => lowUrgency behavior
  | _ => false
  end.

(** Usage counters start at 0 and are only incremented. *)
Definition countersValid (messages : list PersonalityMessage) : Prop :=
  Forall (fun message => 0 <= useCount message) messages.

(** The text starts with a character other than an opening brace, as every
    text of the built-in bank does; substituting the name then keeps that
    character. *)
Definition startsPlain (s : string) : bool :=
  match s with
  | EmptyString => false
  | String c _ => negb (Ascii.eqb c "{")
  end.

(** What holds of every message of the bank in an engine that started from
    the constructor. *)
Definition messageValid (message : PersonalityMessage) : Prop :=
  0 <= useCount message /\ startsPlain (text message) = true.

Definition bankValid (e : PersonalityEngine) : Prop :=
  Forall (Forall messageValid) (messageBank e).

(** No message of the partition personalizes to the empty string. *)
Definition textsNonEmpty (type : ResponseType) (e : PersonalityEngine) : bool :=
  forallb (fun message => negb (String_isEmpty (personalizeMessage (text message) e)))
    (partition type e).

(** *** The scoring formula, term by term *)

Definition careMatchBonus (e : PersonalityEngine) (message : PersonalityMessage) : double :=
  if decide (careLevel message = currentCareLevel e) then d0_4 else d0_0.

Definition moodMatchBonus (e : PersonalityEngine) (message : PersonalityMessage) : double :=
  if decide (mood message = currentMood e) then d0_3 else d0_0.

(** Milliseconds since the message was last used, as the 32-bit clock
    difference gives them. *)
Definition elapsedMillis (now : Z) (message : PersonalityMessage) : Z :=
  ulong_sub now (timestamp message).

Definition ELAPSED_MAX : Z := 4294967295.

Definition minutesOf (millis : Z) : double := dbl_div (dbl_of_Z millis) d60000_0.

Definition recencyBonus (now : Z) (message : PersonalityMessage) : double :=
  dbl_mul (minutesOf (elapsedMillis now message)) d0_2.

(** The recency term as the spec words it, for comparison with the code:
    0.2 times the minutes that have passed since the message was last used
    ([elapsed], in milliseconds), capped at [cap]. *)
Definition cappedRecencyBonus (cap : double) (elapsed : Z) : double :=
  let bonus := dbl_mul (minutesOf elapsed) d0_2 in
  if sf_lt bonus cap then bonus else cap.

Definition frequencyBonus (message : PersonalityMessage) : double :=
  dbl_mul (dbl_div d10_0 (dbl_of_Z (useCount message + 1))) d0_1.

(** The sum of the four terms, accumulated in a [float] from 0. *)
Definition weightedSum (now : Z) (e : PersonalityEngine) (message : PersonalityMessage)
  : float :=
  flt_add_dbl
    (flt_add_dbl
       (flt_add_dbl
          (flt_add_dbl (to_float d0_0) (careMatchBonus e message))
          (moodMatchBonus e message))
       (recencyBonus now message))
    (frequencyBonus message).

(** *** The moving average *)

(** [old*(1-rate) + target*rate] with the operand types of [adaptToUser]. *)
Definition movingAverage (old rate target : float) : float :=
  to_float
    (dbl_add (dbl_mul (to_double old) (dbl_sub d1_0 (to_double rate)))
       (to_double (flt_mul target rate))).

Definition outcomeTarget (effective : bool) : float :=
  to_float (if effective then d1_0 else d0_0).

Definition preference (type : ResponseType) (e : PersonalityEngine) : option float :=
  userPreferences e !! ResponseType_to_nat type.

(** *** Sample inputs *)

Definition bootedEngine : PersonalityEngine := initialize 0 PersonalityEngine_ctor.

(** Nothing needed, user active. *)
Definition calmBehavior : BehaviorData :=
  mkBehavior 0 false false false false false false.

(** Inactive for 121 minutes, past all three thresholds. *)
Definition idleBehavior : BehaviorData :=
  mkBehavior 121 false false false false false false.

(** Inactive for 121 minutes, and a positive behavior was observed. *)
Definition idlePositiveBehavior : BehaviorData :=
  mkBehavior 121 false false false false false true.

(** The booted engine after three ticks of [idleBehavior]. *)
Definition worriedEngine : PersonalityEngine :=
  run [CallUpdateMood idleBehavior; CallUpdateMood idleBehavior; CallUpdateMood idleBehavior]
    bootedEngine.

(** The booted engine with ten messages waiting in the queue. *)
Definition fullQueueEngine : PersonalityEngine :=
  run (replicate 10 (CallQueueMessage "Hey there! You need to hydrate! 💧")) bootedEngine.

(** ** Further members of the engine and of [PersonalityTraits] *)

Definition getCurrentMood (e : PersonalityEngine) : MoodType := currentMood e.

Definition getCurrentCareLevel (e : PersonalityEngine) : CareLevel := currentCareLevel e.

Definition getMoodString (e : PersonalityEngine) : string :=
  match currentMood e with
  | MOOD_HAPPY => "Happy"
  | MOOD_CARING => "Caring"
  | MOOD_CONCERNED => "Concerned"
  | MOOD_WORRIED => "Worried"
  | MOOD_SLEEPING => "Sleeping"
  | MOOD_CELEBRATING => "Celebrating"
  | MOOD_COUNT => "Unknown"
  end.

(** [PersonalityTraits::getCaringPhrase]. *)
Definition getCaringPhrase (level : CareLevel) : string :=
  match level with
  | CARE_GENTLE => "gently suggests"
  | CARE_ENCOURAGING => "encouragingly reminds you"
  | CARE_CONCERNED => "is concerned and asks"
  | CARE_WORRIED => "is really worried and insists"
  | CARE_COUNT => "cares about you"
  end.

(** ** pixel_plant.ino: the callers of the engine

    The sketch keeps the engine in the global [personality] next to the
    system state.  Of its collaborators only the engine is part of the
    state here: LED animations are left out, the messages handed to
    [hardware.audio.speakMessage] are recorded in [spoken] (latest last),
    and what the sketch reads from [behaviorAI] and from the serial line is
    an argument of the function that reads it. *)

Inductive SystemState : Set :=
| SYSTEM_INITIALIZING
| SYSTEM_READY
| SYSTEM_CARING
| SYSTEM_CONCERNED
| SYSTEM_SLEEPING
| SYSTEM_ERROR
| SYSTEM_UPDATING.

Definition REMINDER_CHECK_INTERVAL : Z := 60000.

Record Sketch : Type := mkSketch {
  personality : PersonalityEngine;
  currentState : SystemState;
  lastReminderCheck : Z;   (* the function-local static of checkScheduledReminders *)
  spoken : list string
}.

Definition with_personality (v : PersonalityEngine) (sk : Sketch) : Sketch :=
  mkSketch v (currentState sk) (lastReminderCheck sk) (spoken sk).

Definition with_currentState (v : SystemState) (sk : Sketch) : Sketch :=
  mkSketch (personality sk) v (lastReminderCheck sk) (spoken sk).

Definition with_lastReminderCheck (v : Z) (sk : Sketch) : Sketch :=
  mkSketch (personality sk) (currentState sk) v (spoken sk).

(** [hardware.audio.speakMessage(message)]. *)
Definition speakMessage (message : string) (sk : Sketch) : Sketch :=
  mkSketch (personality sk) (currentState sk) (lastReminderCheck sk) (spoken sk ++ [message]).

Definition transitionToCaring (behavior : BehaviorData) (sk : Sketch) : Sketch :=
  if URGENT_INACTIVITY_THRESHOLD <? inactivityMinutes behavior
  then with_currentState SYSTEM_CONCERNED
         (with_personality (setMood MOOD_WORRIED (personality sk)) sk)
  else with_currentState SYSTEM_CARING
         (with_personality (setMood MOOD_CARING (personality sk)) sk).

Definition runCaringMode (now : Z) (sk : Sketch) : Sketch :=
  let (response, p) := generateCaringResponse_default now (personality sk) in
  let sk := with_personality p sk in
  let sk := speakMessage response sk in
  with_currentState SYSTEM_READY sk.

(** [hasUserResponded] is what [behaviorAI.hasUserResponded()] returns. *)
Definition runConcernedMode (now : Z) (hasUserResponded : bool) (sk : Sketch) : Sketch :=
  let currentMood := getCurrentMood (personality sk) in
  let sk :=
    if decide (currentMood = MOOD_WORRIED)
    then
      let (urgentResponse, p) := generateUrgentResponse now (personality sk) in
      speakMessage urgentResponse (with_personality p sk)
    else sk in
  if hasUserResponded
  then with_currentState SYSTEM_READY
         (with_personality (setMood MOOD_HAPPY (personality sk)) sk)
  else sk.

(** The three flags are what [behaviorAI.isHydrationReminderDue()],
    [isMovementReminderDue()] and [isPostureReminderDue()] return. *)
Definition checkScheduledReminders (now : Z) (hydrationDue movementDue postureDue : bool)
    (sk : Sketch) : Sketch :=
  if REMINDER_CHECK_INTERVAL <? ulong_sub now (lastReminderCheck sk)
  then
    let p := personality sk in
    let p := if hydrationDue
             then queueMessage "Hey there! You need to hydrate! 💧" p else p in
    let p := if movementDue
             then queueMessage "How about a stretch? Take a walk! 🚶‍♀️" p else p in
    let p := if postureDue
             then queueMessage "Time to adjust that posture! Stretch it out! 🧘" p else p in
    with_lastReminderCheck now (with_personality p sk)
  else sk.

(** The part of [handleImmediateTasks] that serves the queue. *)
Definition speakQueuedMessage (sk : Sketch) : Sketch :=
  if hasQueuedMessage (personality sk)
  then
    let (message, p) := getNextMessage (personality sk) in
    speakMessage message (with_personality p sk)
  else sk.

(** ** Definitions used by the further statements *)

(** [n] calls of the same member function in a row. *)
Definition repeatCall (n : nat) (f : PersonalityEngine -> PersonalityEngine)
    (e : PersonalityEngine) : PersonalityEngine :=
  Nat.iter n f e.

(** [updateMood] takes its escalating branch for this behavior: the caring
    urgency is above 0.7. *)
Definition highUrgency (behavior : BehaviorData) : bool :=
  flt_gt_dbl (calculateCaringUrgency behavior) d0_7.

(** [queueMessage] for each message in turn. *)
Definition queueAll (messages : list string) (e : PersonalityEngine) : PersonalityEngine :=
  fold_left (fun e message => queueMessage message e) messages e.

(** [n] calls of [getNextMessage]: the messages returned, in order, and the
    engine afterwards. *)
Fixpoint drainQueue (n : nat) (e : PersonalityEngine) : list string * PersonalityEngine :=
  match n with
  | O => ([], e)
  | S k =>
      let (message, e1) := getNextMessage e in
      let (rest, e2) := drainQueue k e1 in
      (message :: rest, e2)
  end.

(** The immutable part of a catalog entry. *)
Definition catalogEntry (message : PersonalityMessage) : string * MoodType * CareLevel :=
  (text message, mood message, careLevel message).

(** The string has no opening brace, so no placeholder starts in it. *)
Fixpoint braceFree (s : string) : bool :=
  match s with
  | EmptyString => true
  | String c rest => negb (Ascii.eqb c "{") && braceFree rest
  end.

Definition isInitialize (c : EngineCall) : bool :=
  match c with CallInitialize _ => true | _ => false end.

(** The texts [checkScheduledReminders] queues for the reminders that are
    due, in the order of its three tests. *)
Definition dueTexts (hydrationDue movementDue postureDue : bool) : list string :=
  (if hydrationDue then ["Hey there! You need to hydrate! 💧"%string] else []) ++
  (if movementDue then ["How about a stretch? Take a walk! 🚶‍♀️"%string] else []) ++
  (if postureDue then ["Time to adjust that posture! Stretch it out! 🧘"%string] else []).

(** Update ticks of [runConcernedMode] at the given clock readings, the
    user not having responded. *)
Definition concernedTicks (times : list Z) (sk : Sketch) : Sketch :=
  fold_left (fun sk now => runConcernedMode now false sk) times sk.

(** The sketch after [setup]: the booted engine, ready, nothing spoken. *)
Definition readySketch : Sketch := mkSketch bootedEngine SYSTEM_READY 0 [].

(** The ready sketch after [transitionToCaring] at 121 minutes of
    inactivity: concerned state, Worried mood. *)
Definition concernedSketch : Sketch := transitionToCaring idleBehavior readySketch.

(** * Facts about the arithmetic *)

Section Rounding.
Variables prec emax : Z.

Lemma shr_1_nonneg mrs : 0 <= shr_m mrs -> 0 <= shr_m (shr_1 mrs).
Proof.
  destruct mrs as [m r s]; simpl.
  destruct m as [|p|p]; [simpl; lia | | lia].
  intros _. destruct p; simpl; lia.
Qed.

Lemma iter_shr_1_nonneg n : forall mrs,
  0 <= shr_m mrs -> 0 <= shr_m (SpecFloat.iter_pos shr_1 n mrs).
Proof.
  induction n as [n IH|n IH|]; intros mrs H; simpl.
  - apply IH, IH, shr_1_nonneg, H.
  - apply IH, IH, H.
  - apply shr_1_nonneg, H.
Qed.

Lemma shr_fexp_nonneg m e l :
  0 <= m -> 0 <= shr_m (fst (shr_fexp prec emax m e l)).
Proof.
  intros H. unfold shr_fexp, shr.
  assert (H0 : 0 <= shr_m (shr_record_of_loc m l)).
  { destruct l as [|[]]; simpl; exact H. }
  destruct (fexp prec emax (Zdigits2 m + e) - e); simpl; auto.
  apply iter_shr_1_nonneg, H0.
Qed.

Lemma round_nearest_even_nonneg m l : 0 <= m -> 0 <= round_nearest_even m l.
Proof.
  intros H. destruct l as [|[]]; simpl; try lia.
  destruct (Z.even m); lia.
Qed.

(** Rounding a non-negative magnitude never produces a NaN and keeps the
    sign it is given. *)
Lemma binary_round_aux_sign sx mx ex lx :
  0 <= mx ->
  match binary_round_aux prec emax sx mx ex lx with
  | S754_nan => False
  | S754_zero s | S754_infinity s | S754_finite s _ _ => s = sx
  end.
Proof.
  intros H. unfold binary_round_aux.
  pose proof (shr_fexp_nonneg mx ex lx H) as H1.
  destruct (shr_fexp prec emax mx ex lx) as [mrs' e'] eqn:E1. simpl in H1.
  pose proof (shr_fexp_nonneg _ e' loc_Exact
                (round_nearest_even_nonneg _ (loc_of_shr_record mrs') H1)) as H2.
  destruct (shr_fexp prec emax _ e' loc_Exact) as [mrs'' e''] eqn:E2. simpl in H2.
  destruct (shr_m mrs'') as [|p|p]; [reflexivity | | lia].
  destruct (e'' <=? emax - prec); reflexivity.
Qed.

Lemma binary_round_aux_sign_clear mx ex lx :
  0 <= mx -> sign_clear (binary_round_aux prec emax false mx ex lx) = true.
Proof.
  intros Hm. pose proof (binary_round_aux_sign false mx ex lx Hm) as H.
  destruct (binary_round_aux prec emax false mx ex lx);
    simpl in *; subst; auto; contradiction.
Qed.

Lemma binary_round_sign_clear mx ex :
  sign_clear (binary_round prec emax false mx ex) = true.
Proof.
  unfold binary_round.
  destruct (shl_align mx ex _) as [mz ez].
  apply binary_round_aux_sign_clear. lia.
Qed.

Lemma SFdiv_core_binary_nonneg m1 e1 m2 e2 :
  0 <= fst (fst (SFdiv_core_binary prec emax (Zpos m1) e1 (Zpos m2) e2)).
Proof.
  unfold SFdiv_core_binary.
  set (s := _ - _ - Z.min _ _).
  set (m' := match s with
             | Z0 => Zpos m1
             | Zpos _ => Z.shiftl (Zpos m1) s
             | Zneg _ => 0
             end).
  assert (Hm : 0 <= m').
  { subst m'. destruct s; try lia. apply Z.shiftl_nonneg. lia. }
  pose proof (Z.div_eucl_eq m' (Zpos m2) ltac:(lia)) as Heq.
  pose proof (Z.mod_pos_bound m' (Zpos m2) ltac:(lia)) as Hr.
  unfold Z.modulo in Hr.
  destruct (Z.div_eucl m' (Z.pos m2)) as [q r]. simpl. nia.
Qed.
End Rounding.

Lemma to_float_sign_clear x : sign_clear x = true -> sign_clear (to_float x) = true.
Proof.
  destruct x as [s|s| |s m e]; simpl; auto.
  destruct s; [discriminate|]. intros _. apply binary_round_sign_clear.
Qed.

Lemma to_double_sign_clear x : sign_clear x = true -> sign_clear (to_double x) = true.
Proof.
  destruct x as [s|s| |s m e]; simpl; auto.
  destruct s; [discriminate|]. intros _. apply binary_round_sign_clear.
Qed.

Lemma dbl_of_Z_sign_clear z : 0 <= z -> sign_clear (dbl_of_Z z) = true.
Proof.
  intros H. unfold dbl_of_Z, binary_normalize.
  destruct z as [|p|p]; [reflexivity | apply binary_round_sign_clear | lia].
Qed.

Lemma dbl_add_sign_clear x y :
  sign_clear x = true -> sign_clear y = true -> sign_clear (dbl_add x y) = true.
Proof.
  destruct x as [[]|[]| |[] mx ex]; simpl; try discriminate;
    destruct y as [[]|[]| |[] my ey]; simpl; try discriminate; auto; intros _ _.
  unfold dbl_add, SFadd, binary_normalize. simpl cond_Zopp.
  apply binary_round_sign_clear.
Qed.

Lemma dbl_mul_sign_clear x y :
  sign_clear x = true -> finite_pos y = true -> sign_clear (dbl_mul x y) = true.
Proof.
  destruct x as [[]|[]| |[] mx ex]; simpl; try discriminate;
    destruct y as [[]|[]| |[] my ey]; simpl; try discriminate; auto; intros _ _.
  apply binary_round_aux_sign_clear. lia.
Qed.

(** Of the two operands one is finite and above zero, which rules out the
    NaN cases 0/0 and inf/inf. *)
Lemma dbl_div_sign_clear x y :
  sign_clear x = true -> sign_clear y = true ->
  finite_pos x = true \/ finite_pos y = true ->
  sign_clear (dbl_div x y) = true.
Proof.
  destruct x as [[]|[]| |[] mx ex]; simpl; try discriminate;
    destruct y as [[]|[]| |[] my ey]; simpl; try discriminate; auto; intros _ _;
    try (intros [?|?]; discriminate); intros _.
  unfold dbl_div, SFdiv.
  pose proof (SFdiv_core_binary_nonneg dbl_prec dbl_emax mx ex my ey) as H.
  destruct (SFdiv_core_binary _ _ _ _ _ _) as [[mz ez] lz]. simpl in H.
  apply binary_round_aux_sign_clear, H.
Qed.

Lemma flt_add_dbl_sign_clear f d :
  sign_clear f = true -> sign_clear d = true -> sign_clear (flt_add_dbl f d) = true.
Proof.
  intros Hf Hd. unfold flt_add_dbl.
  apply to_float_sign_clear, dbl_add_sign_clear; auto using to_double_sign_clear.
Qed.

(** *** The order of the comparisons *)

Ltac compare_cases :=
  repeat match goal with
  | H : context [Z.compare ?a ?b] |- _ => destruct (Z.compare_spec a b); subst
  | |- context [Z.compare ?a ?b] => destruct (Z.compare_spec a b); subst
  | H : context [Pos.compare_cont Eq ?a ?b] |- _ =>
      change (Pos.compare_cont Eq a b) with (Pos.compare a b) in *;
      destruct (Pos.compare_spec a b); subst
  | |- context [Pos.compare_cont Eq ?a ?b] =>
      change (Pos.compare_cont Eq a b) with (Pos.compare a b) in *;
      destruct (Pos.compare_spec a b); subst
  end;
  simpl in *; try congruence; try lia.

Ltac float_cases x :=
  let s := fresh "s" in destruct x as [s|s| |s ? ?]; try destruct s.

Lemma sf_gt_irrefl x : sf_gt x x = false.
Proof. unfold sf_gt. float_cases x; simpl; compare_cases. Qed.

Lemma sf_gt_is_number x y : sf_gt x y = true -> is_nan x = false /\ is_nan y = false.
Proof. unfold sf_gt. float_cases x; float_cases y; simpl; auto; discriminate. Qed.

(** [b < y] and [y <= r] give [b <= r]. *)
Lemma sf_gt_le_trans y b r :
  sf_gt y b = true -> sf_gt y r = false -> sf_gt b r = false.
Proof.
  unfold sf_gt.
  float_cases y; float_cases b; simpl; try discriminate;
    float_cases r; simpl; try discriminate; auto; compare_cases.
Qed.

(** [s <= b] and [b <= r] give [s <= r], for a number [b]. *)
Lemma sf_le_trans s b r :
  is_nan b = false -> sf_gt s b = false -> sf_gt b r = false -> sf_gt s r = false.
Proof.
  unfold sf_gt.
  float_cases b; simpl; try discriminate; intros _;
    float_cases s; simpl; try discriminate; auto;
    float_cases r; simpl; try discriminate; auto; compare_cases.
Qed.

(** [s <= b] and [b < y] give [s < y], for a number [s]. *)
Lemma sf_le_gt_trans s b y :
  is_nan s = false -> sf_gt s b = false -> sf_gt y b = true -> sf_gt y s = true.
Proof.
  unfold sf_gt.
  float_cases s; simpl; try discriminate; intros _;
    float_cases b; simpl; try discriminate; auto;
    float_cases y; simpl; try discriminate; auto; compare_cases.
Qed.

Lemma sign_clear_is_number x : sign_clear x = true -> is_nan x = false.
Proof. float_cases x; simpl; auto. Qed.

Lemma sign_clear_gt_minus_one x :
  sign_clear x = true -> flt_gt x (to_float dm1_0) = true.
Proof. float_cases x; simpl; try discriminate; reflexivity. Qed.

(** * The care level *)

Lemma careValue_escalateCareLevel e :
  careValue (escalateCareLevel e) =
  if careValue e <? 3 then careValue e + 1 else careValue e.
Proof.
  unfold careValue, escalateCareLevel.
  destruct (currentCareLevel e) eqn:E; simpl; rewrite ?E; reflexivity.
Qed.

Lemma careValue_reduceCareLevel e :
  careValue (reduceCareLevel e) =
  if 0 <? careValue e then careValue e - 1 else careValue e.
Proof.
  unfold careValue, reduceCareLevel.
  destruct (currentCareLevel e) eqn:E; simpl; rewrite ?E; reflexivity.
Qed.

Lemma careValue_setMood m e : careValue (setMood m e) = careValue e.
Proof. unfold setMood. case_decide; reflexivity. Qed.

Lemma careValue_adaptToUser t x e : careValue (adaptToUser t x e) = careValue e.
Proof. unfold adaptToUser. destruct (_ <? _)%nat; reflexivity. Qed.

Lemma careValue_generateCaringResponse now t e :
  careValue (snd (generateCaringResponse now t e)) = careValue e.
Proof.
  unfold generateCaringResponse.
  destruct (negb (canRespondNow now e)); [reflexivity|].
  destruct (selectBestMessage now t e) as [[i m]|]; reflexivity.
Qed.

Lemma careValue_queueMessage msg e : careValue (queueMessage msg e) = careValue e.
Proof. unfold queueMessage. destruct (_ <? _)%nat; reflexivity. Qed.

Lemma careValue_updateMood behavior e :
  careValue (updateMood behavior e) =
  if flt_gt_dbl (calculateCaringUrgency behavior) d0_7 && (careValue e <? 3)
  then careValue e + 1
  else if lowUrgency behavior && (0 <? careValue e)
  then careValue e - 1
  else careValue e.
Proof.
  unfold updateMood, lowUrgency.
  set (e1 := set_caringIntensity _ (setMood _ e)).
  assert (H1 : careValue e1 = careValue e) by apply careValue_setMood.
  fold (careValue e1). change (CareLevel_to_Z CARE_WORRIED) with 3.
  change (CareLevel_to_Z CARE_GENTLE) with 0. rewrite H1.
  destruct (flt_gt_dbl _ _); simpl.
  - destruct (careValue e <? 3) eqn:E.
    + rewrite careValue_escalateCareLevel, H1, E. reflexivity.
    + destruct (flt_lt_dbl _ _); simpl; [|exact H1].
      destruct (0 <? careValue e) eqn:E0; [|exact H1].
      rewrite careValue_reduceCareLevel, H1, E0. reflexivity.
  - destruct (flt_lt_dbl _ _); simpl; [|exact H1].
    destruct (0 <? careValue e) eqn:E0; [|exact H1].
    rewrite careValue_reduceCareLevel, H1, E0. reflexivity.
Qed.

Lemma careValue_recordUserResponse t effective e :
  careValue (recordUserResponse t effective e) =
  if effective && (0 <? careValue e) then careValue e - 1 else careValue e.
Proof.
  unfold recordUserResponse.
  set (e1 := set_history _ e).
  set (e2 := if learningEnabled e1 then _ else e1).
  assert (H2 : careValue e2 = careValue e).
  { subst e2. destruct (learningEnabled e1);
      [rewrite careValue_adaptToUser|]; reflexivity. }
  fold (careValue e2). change (CareLevel_to_Z CARE_GENTLE) with 0. rewrite H2.
  destruct effective; simpl; [|exact H2].
  destruct (0 <? careValue e) eqn:E0; [|exact H2].
  rewrite careValue_reduceCareLevel, H2, E0. reflexivity.
Qed.

Lemma consecutiveIgnored_adaptToUser t x e :
  consecutiveIgnored (history (adaptToUser t x e)) = consecutiveIgnored (history e).
Proof. unfold adaptToUser. destruct (_ <? _)%nat; reflexivity. Qed.

Lemma consecutiveIgnored_escalateCareLevel e :
  consecutiveIgnored (history (escalateCareLevel e)) = consecutiveIgnored (history e).
Proof. unfold escalateCareLevel. destruct (_ <? _); reflexivity. Qed.

Lemma consecutiveIgnored_reduceCareLevel e :
  consecutiveIgnored (history (reduceCareLevel e)) = consecutiveIgnored (history e).
Proof. unfold reduceCareLevel. destruct (_ <? _); reflexivity. Qed.

Lemma consecutiveIgnored_recordUserIgnored t e :
  consecutiveIgnored (history (recordUserIgnored t e)) =
  consecutiveIgnored (history e) + 1.
Proof.
  unfold recordUserIgnored.
  set (e1 := set_history _ e).
  set (e2 := if learningEnabled e1 then _ else e1).
  assert (H2 : consecutiveIgnored (history e2) = consecutiveIgnored (history e) + 1).
  { subst e2. destruct (learningEnabled e1);
      [rewrite consecutiveIgnored_adaptToUser|]; reflexivity. }
  destruct (_ && _); [rewrite consecutiveIgnored_escalateCareLevel|]; exact H2.
Qed.

Lemma careValue_recordUserIgnored t e :
  careValue (recordUserIgnored t e) =
  if (3 <=? consecutiveIgnored (history e) + 1) && (careValue e <? 3)
  then careValue e + 1
  else careValue e.
Proof.
  unfold recordUserIgnored.
  set (e1 := set_history _ e).
  set (e2 := if learningEnabled e1 then _ else e1).
  assert (H2 : careValue e2 = careValue e).
  { subst e2. destruct (learningEnabled e1);
      [rewrite careValue_adaptToUser|]; reflexivity. }
  assert (H3 : consecutiveIgnored (history e2) = consecutiveIgnored (history e) + 1).
  { subst e2. destruct (learningEnabled e1);
      [rewrite consecutiveIgnored_adaptToUser|]; reflexivity. }
  fold (careValue e2). change (CareLevel_to_Z CARE_WORRIED) with 3. rewrite H2, H3.
  destruct (3 <=? _); simpl; [|exact H2].
  destruct (careValue e <? 3) eqn:E; [|exact H2].
  rewrite careValue_escalateCareLevel, H2, E. reflexivity.
Qed.

(** What one call can do to the care level: nothing, one step up, or one
    step down; a step down needs a call of [lowersCareLevel]. *)
Lemma call_care_cases c e :
  careValue (call c e) = careValue e \/
  (careValue e < 3 /\ careValue (call c e) = careValue e + 1) \/
  (0 < careValue e /\ lowersCareLevel c = true /\
   careValue (call c e) = careValue e - 1).
Proof.
  destruct c; simpl call; simpl lowersCareLevel;
    try (left; reflexivity).
  - rewrite careValue_updateMood.
    destruct (flt_gt_dbl _ _ && _) eqn:E1.
    + apply andb_prop in E1 as [_ E1]. right; left. lia.
    + destruct (lowUrgency behavior); simpl; [|left; reflexivity].
      destruct (0 <? careValue e) eqn:E0; [|left; reflexivity].
      right; right. lia.
  - left. apply careValue_setMood.
  - rewrite careValue_recordUserResponse.
    destruct effective; simpl; [|left; reflexivity].
    destruct (0 <? careValue e) eqn:E0; [|left; reflexivity].
    right; right. lia.
  - rewrite careValue_recordUserIgnored.
    destruct (_ && _) eqn:E1; [|left; reflexivity].
    apply andb_prop in E1 as [_ E1]. right; left. lia.
  - left. apply careValue_generateCaringResponse.
  - unfold generateUrgentResponse.
    rewrite careValue_generateCaringResponse, careValue_escalateCareLevel.
    destruct (careValue e <? 3) eqn:E; [right; left; lia | left; reflexivity].
  - left. unfold generateCelebrationMessage.
    pose proof (careValue_generateCaringResponse now RESPONSE_CELEBRATION e) as H.
    destruct (generateCaringResponse now RESPONSE_CELEBRATION e). exact H.
  - left. apply careValue_queueMessage.
  - left. unfold queueMessage_type.
    pose proof (careValue_generateCaringResponse now type e) as H.
    destruct (generateCaringResponse now type e) as [msg e1]. simpl in H.
    destruct (negb _); [rewrite careValue_queueMessage|]; exact H.
  - left. unfold getNextMessage. destruct (messageQueue e); reflexivity.
  - left. apply careValue_adaptToUser.
Qed.

Lemma run_app calls1 calls2 e : run (calls1 ++ calls2) e = run calls2 (run calls1 e).
Proof. unfold run. apply fold_left_app. Qed.

Lemma run_cons c calls e : run (c :: calls) e = run calls (call c e).
Proof. reflexivity. Qed.

Lemma CareLevel_to_Z_inj c1 c2 : CareLevel_to_Z c1 = CareLevel_to_Z c2 -> c1 = c2.
Proof. destruct c1, c2; simpl; intros H; congruence || lia. Qed.

(** The branch of [updateMood] that lowers the care level, in terms of the
    behavior: at most 30 minutes of inactivity, no hydration need, and not
    both a movement and a posture need. *)
Lemma lowUrgency_behavior behavior :
  lowUrgency behavior = true <->
  inactivityMinutes behavior <= NORMAL_INACTIVITY_THRESHOLD /\
  needsHydration behavior = false /\
  needsMovement behavior && needsPostureAdjustment behavior = false.
Proof.
  unfold lowUrgency, calculateCaringUrgency, NORMAL_INACTIVITY_THRESHOLD,
    CONCERNED_INACTIVITY_THRESHOLD, URGENT_INACTIVITY_THRESHOLD.
  destruct behavior as [i h m p br su po]; cbn [inactivityMinutes needsHydration
    needsMovement needsPostureAdjustment].
  destruct (120 <? i) eqn:E1; [apply Z.ltb_lt in E1 | apply Z.ltb_ge in E1];
    (destruct (60 <? i) eqn:E2; [apply Z.ltb_lt in E2 | apply Z.ltb_ge in E2]);
    (destruct (30 <? i) eqn:E3; [apply Z.ltb_lt in E3 | apply Z.ltb_ge in E3]);
    try lia;
    destruct h, m, p;
    match goal with
    | |- ?lhs = true <-> _ =>
        let v := eval vm_compute in lhs in
        replace lhs with v by (vm_compute; reflexivity)
    end;
    simpl andb;
    (split; [intros H; try discriminate H; repeat split; auto; lia
            | intros (H1 & H2 & H3); try discriminate; auto; lia ]).
Qed.

(** C1 (counterexample).  Two ticks and no user response: the first tick, at
    121 minutes of inactivity, raises the care level of the booted engine to
    Encouraging; the second, with the user active again and nothing needed
    (urgency 0), lowers it back to Gentle. *)
Lemma care_level_drops_on_calm_tick :
  let e := updateMood idleBehavior bootedEngine in
  currentCareLevel e = CARE_ENCOURAGING /\
  currentCareLevel (updateMood calmBehavior e) = CARE_GENTLE.
Proof. vm_compute. split; reflexivity. Qed.

(** C1 (amended).  Over any sequence of engine calls that contains neither
    [recordUserResponse] with [effective = true] nor an [updateMood] tick
    whose caring urgency is below 0.3, the care level is non-decreasing.  A
    single call lowers the care level only if it is one of those two, and
    then by exactly one step.  The low-urgency ticks are those with at most
    30 minutes of inactivity, no hydration need, and not both a movement and
    a posture need. *)
Theorem care_level_monotone_without_lowering_calls :
  (forall calls e,
      Forall (fun c => lowersCareLevel c = false) calls ->
      careValue e <= careValue (run calls e)) /\
  (forall c e,
      careValue (call c e) < careValue e ->
      lowersCareLevel c = true /\ careValue (call c e) = careValue e - 1) /\
  (forall behavior,
      lowersCareLevel (CallUpdateMood behavior) = true <->
      inactivityMinutes behavior <= 30 /\
      needsHydration behavior = false /\
      needsMovement behavior && needsPostureAdjustment behavior = false).
Proof.
  split; [|split].
  - intros calls. induction calls as [|c calls IH]; intros e H.
    + reflexivity.
    + inversion H as [|? ? Hc Hcalls]; subst. rewrite run_cons.
      specialize (IH (call c e) Hcalls).
      destruct (call_care_cases c e) as [Heq | [[_ Heq] | (_ & Hl & _)]];
        [lia | lia | congruence].
  - intros c e Hlt.
    destruct (call_care_cases c e) as [Heq | [[_ Heq] | (_ & Hl & Heq)]];
      [lia | lia | auto].
  - intros behavior. apply lowUrgency_behavior.
Qed.

Lemma care_level_monotone_without_lowering_calls_witness :
  let calls := [CallUpdateMood idleBehavior;
                CallRecordUserIgnored RESPONSE_HYDRATION;
                CallRecordUserResponse RESPONSE_HYDRATION false] in
  Forall (fun c => lowersCareLevel c = false) calls /\
  careValue bootedEngine <= careValue (run calls bootedEngine).
Proof.
  assert (H : Forall (fun c => lowersCareLevel c = false)
                [CallUpdateMood idleBehavior;
                 CallRecordUserIgnored RESPONSE_HYDRATION;
                 CallRecordUserResponse RESPONSE_HYDRATION false]).
  { repeat constructor. }
  split; [exact H|].
  exact (proj1 care_level_monotone_without_lowering_calls _ bootedEngine H).
Defined.

(** C3.  In one transition (an [updateMood] tick for any behavior, an
    [escalateCareLevel] or [reduceCareLevel] call, or any public call) the
    care level moves by at most one step and stays between Gentle and
    Worried, whatever inactivity the tick reports. *)
Theorem care_level_single_step e :
  careInRange e ->
  (forall behavior, careStep e (updateMood behavior e)) /\
  careStep e (escalateCareLevel e) /\
  careStep e (reduceCareLevel e) /\
  (forall c, careStep e (call c e)).
Proof.
  unfold careStep, careInRange. simpl CareLevel_to_Z. intros Hr.
  assert (Hcall : forall c,
    Z.abs (careValue (call c e) - careValue e) <= 1 /\ 0 <= careValue (call c e) <= 3).
  { intros c.
    destruct (call_care_cases c e) as [Heq | [[Hlt Heq] | (Hlt & _ & Heq)]];
      rewrite Heq; lia. }
  split; [|split; [|split]].
  - intros behavior. apply (Hcall (CallUpdateMood behavior)).
  - rewrite careValue_escalateCareLevel. destruct (careValue e <? 3) eqn:E; lia.
  - rewrite careValue_reduceCareLevel. destruct (0 <? careValue e) eqn:E; lia.
  - exact Hcall.
Qed.

Lemma care_level_single_step_witness :
  careInRange bootedEngine /\
  careStep bootedEngine (updateMood idleBehavior bootedEngine).
Proof.
  assert (H : careInRange bootedEngine) by (vm_compute; split; discriminate).
  split; [exact H|].
  exact (proj1 (care_level_single_step bootedEngine H) idleBehavior).
Defined.

(** * The mood *)

Lemma currentMood_setMood m e : currentMood (setMood m e) = m.
Proof.
  unfold setMood. case_decide as H; [reflexivity|].
  destruct (decide (currentMood e = m)); [assumption | contradiction].
Qed.

Lemma currentMood_escalateCareLevel e :
  currentMood (escalateCareLevel e) = currentMood e.
Proof. unfold escalateCareLevel. destruct (_ <? _); reflexivity. Qed.

Lemma currentMood_reduceCareLevel e :
  currentMood (reduceCareLevel e) = currentMood e.
Proof. unfold reduceCareLevel. destruct (_ <? _); reflexivity. Qed.

Lemma currentMood_updateMood behavior e :
  currentMood (updateMood behavior e) = behaviorToMood behavior.
Proof.
  unfold updateMood.
  set (e1 := set_caringIntensity _ (setMood _ e)).
  assert (H1 : currentMood e1 = behaviorToMood behavior) by apply currentMood_setMood.
  destruct (_ && _); [rewrite currentMood_escalateCareLevel; exact H1|].
  destruct (_ && _); [rewrite currentMood_reduceCareLevel; exact H1 | exact H1].
Qed.

(** C5 (counterexample).  A snapshot that has [hasPositiveBehavior] set and
    reports 121 minutes of inactivity: the mood after the update is Worried,
    not Celebrating. *)
Lemma idle_positive_behavior_is_worried :
  hasPositiveBehavior idlePositiveBehavior = true /\
  currentMood (updateMood idlePositiveBehavior bootedEngine) = MOOD_WORRIED.
Proof. vm_compute. split; reflexivity. Qed.

(** C5 (amended).  The mood after [updateMood] is a function of
    [(inactivityMinutes, hasPositiveBehavior, needsSupport)] and of nothing
    else, the care level included, and inactivity takes priority: more than
    120 minutes give Worried; more than 60 give Concerned; otherwise positive
    behavior gives Celebrating, else a need for support gives Caring, else
    the mood is Happy. *)
Theorem updateMood_mood_from_behavior behavior e :
  let i := inactivityMinutes behavior in
  let m := currentMood (updateMood behavior e) in
  (120 < i -> m = MOOD_WORRIED) /\
  (60 < i <= 120 -> m = MOOD_CONCERNED) /\
  (i <= 60 -> hasPositiveBehavior behavior = true -> m = MOOD_CELEBRATING) /\
  (i <= 60 -> hasPositiveBehavior behavior = false ->
   needsSupport behavior = true -> m = MOOD_CARING) /\
  (i <= 60 -> hasPositiveBehavior behavior = false ->
   needsSupport behavior = false -> m = MOOD_HAPPY) /\
  (forall behavior' e',
      inactivityMinutes behavior' = i ->
      hasPositiveBehavior behavior' = hasPositiveBehavior behavior ->
      needsSupport behavior' = needsSupport behavior ->
      currentMood (updateMood behavior' e') = m).
Proof.
  cbv zeta. rewrite currentMood_updateMood.
  unfold behaviorToMood, URGENT_INACTIVITY_THRESHOLD, CONCERNED_INACTIVITY_THRESHOLD.
  repeat split.
  - intros H. apply Z.ltb_lt in H. rewrite H. reflexivity.
  - intros [H1 H2]. apply Z.ltb_lt in H1. apply Z.ltb_ge in H2.
    rewrite H2, H1. reflexivity.
  - intros H Hp.
    assert (H1 : (120 <? inactivityMinutes behavior) = false) by (apply Z.ltb_ge; lia).
    apply Z.ltb_ge in H. rewrite H1, H, Hp. reflexivity.
  - intros H Hp Hs.
    assert (H1 : (120 <? inactivityMinutes behavior) = false) by (apply Z.ltb_ge; lia).
    apply Z.ltb_ge in H. rewrite H1, H, Hp, Hs. reflexivity.
  - intros H Hp Hs.
    assert (H1 : (120 <? inactivityMinutes behavior) = false) by (apply Z.ltb_ge; lia).
    apply Z.ltb_ge in H. rewrite H1, H, Hp, Hs. reflexivity.
  - intros behavior' e' Hi Hp Hs. rewrite currentMood_updateMood.
    unfold behaviorToMood, URGENT_INACTIVITY_THRESHOLD, CONCERNED_INACTIVITY_THRESHOLD.
    rewrite Hi, Hp, Hs. reflexivity.
Qed.

Lemma updateMood_mood_from_behavior_witness :
  120 < inactivityMinutes idlePositiveBehavior /\
  currentMood (updateMood idlePositiveBehavior worriedEngine) = MOOD_WORRIED.
Proof.
  assert (H : 120 < inactivityMinutes idlePositiveBehavior) by (simpl; lia).
  split; [exact H|].
  exact (proj1 (updateMood_mood_from_behavior idlePositiveBehavior worriedEngine) H).
Defined.

(** * Feedback: ignored reminders and effective responses *)

(** C6.  [recordUserIgnored] increments [consecutiveIgnored]; whenever the
    count it reaches is 3 or more, the care level goes up by exactly one
    step, unless it is already Worried, in which case it stays there.  The
    call takes no behavior snapshot: the step is taken whatever the
    inactivity. *)
Theorem recordUserIgnored_escalates responseType e :
  let e' := recordUserIgnored responseType e in
  consecutiveIgnored (history e') = consecutiveIgnored (history e) + 1 /\
  (3 <= consecutiveIgnored (history e') ->
   (careValue e < CareLevel_to_Z CARE_WORRIED -> careValue e' = careValue e + 1) /\
   (currentCareLevel e = CARE_WORRIED -> currentCareLevel e' = CARE_WORRIED)).
Proof.
  cbv zeta. rewrite consecutiveIgnored_recordUserIgnored. split; [reflexivity|].
  intros H3. apply Z.leb_le in H3.
  pose proof (careValue_recordUserIgnored responseType e) as Hc. rewrite H3 in Hc.
  simpl CareLevel_to_Z. split.
  - intros Hlt. apply Z.ltb_lt in Hlt. rewrite Hlt in Hc. exact Hc.
  - intros Hw. apply CareLevel_to_Z_inj. fold (careValue (recordUserIgnored responseType e)).
    rewrite Hc. unfold careValue. rewrite Hw. reflexivity.
Qed.

Lemma recordUserIgnored_escalates_witness :
  let e := run [CallRecordUserIgnored RESPONSE_HYDRATION;
                CallRecordUserIgnored RESPONSE_HYDRATION] bootedEngine in
  3 <= consecutiveIgnored (history (recordUserIgnored RESPONSE_HYDRATION e)) /\
  careValue e < CareLevel_to_Z CARE_WORRIED /\
  careValue (recordUserIgnored RESPONSE_HYDRATION e) = careValue e + 1.
Proof.
  set (e := run [CallRecordUserIgnored RESPONSE_HYDRATION;
                 CallRecordUserIgnored RESPONSE_HYDRATION] bootedEngine).
  assert (H3 : 3 <= consecutiveIgnored (history (recordUserIgnored RESPONSE_HYDRATION e)))
    by (vm_compute; discriminate).
  assert (Hlt : careValue e < CareLevel_to_Z CARE_WORRIED) by (vm_compute; reflexivity).
  split; [exact H3|]. split; [exact Hlt|].
  exact (proj1 (proj2 (recordUserIgnored_escalates RESPONSE_HYDRATION e) H3) Hlt).
Defined.

(** C7.  [recordUserResponse] with [effective = true], in every state of the
    engine: [consecutiveIgnored] becomes 0 and the care level goes down by
    exactly one step, with Gentle as the floor; from Worried it becomes
    Concerned. *)
Theorem recordUserResponse_effective_deescalates responseType e :
  let e' := recordUserResponse responseType true e in
  consecutiveIgnored (history e') = 0 /\
  careValue e' = Z.max (careValue e - 1) (CareLevel_to_Z CARE_GENTLE) /\
  (currentCareLevel e = CARE_WORRIED -> currentCareLevel e' = CARE_CONCERNED).
Proof.
  cbv zeta.
  pose proof (careValue_recordUserResponse responseType true e) as Hc.
  simpl andb in Hc. split; [|split].
  - unfold recordUserResponse.
    set (e1 := set_history _ e).
    set (e2 := if learningEnabled e1 then _ else e1).
    assert (H2 : consecutiveIgnored (history e2) = 0).
    { subst e2. destruct (learningEnabled e1);
        [rewrite consecutiveIgnored_adaptToUser|]; reflexivity. }
    destruct (_ && _); [rewrite consecutiveIgnored_reduceCareLevel|]; exact H2.
  - rewrite Hc. simpl CareLevel_to_Z.
    assert (0 <= careValue e) by (unfold careValue; destruct (currentCareLevel e); simpl; lia).
    destruct (0 <? careValue e) eqn:E; [apply Z.ltb_lt in E | apply Z.ltb_ge in E]; lia.
  - intros Hw. apply CareLevel_to_Z_inj.
    fold (careValue (recordUserResponse responseType true e)).
    rewrite Hc. unfold careValue. rewrite Hw. reflexivity.
Qed.

Lemma recordUserResponse_effective_deescalates_witness :
  currentCareLevel worriedEngine = CARE_WORRIED /\
  currentCareLevel (recordUserResponse RESPONSE_HYDRATION true worriedEngine)
  = CARE_CONCERNED.
Proof.
  assert (H : currentCareLevel worriedEngine = CARE_WORRIED) by (vm_compute; reflexivity).
  split; [exact H|].
  exact (proj2 (proj2
    (recordUserResponse_effective_deescalates RESPONSE_HYDRATION worriedEngine)) H).
Defined.

(** * The selector *)

Lemma sf_gt_asym x y : sf_gt x y = true -> sf_gt y x = false.
Proof. intros H. apply (sf_gt_le_trans x y x H), sf_gt_irrefl. Qed.

Lemma sf_gt_trans x y z : sf_gt x y = true -> sf_gt y z = true -> sf_gt x z = true.
Proof.
  intros Hxy Hyz. apply (sf_le_gt_trans z y x); auto using sf_gt_asym.
  apply (sf_gt_is_number y z Hyz).
Qed.

(** With a counter that is not negative every term of the score is a number
    with a clear sign bit, and so is the score. *)
Lemma messageScore_sign_clear now e message :
  0 <= useCount message + 1 -> sign_clear (messageScore now e message) = true.
Proof.
  intros Hu. unfold messageScore.
  apply flt_add_dbl_sign_clear; [apply flt_add_dbl_sign_clear |].
  - repeat case_decide; repeat apply flt_add_dbl_sign_clear; reflexivity.
  - apply dbl_mul_sign_clear; [|reflexivity].
    apply dbl_div_sign_clear; [apply dbl_of_Z_sign_clear | reflexivity | right; reflexivity].
    apply Z.mod_pos_bound. reflexivity.
  - apply dbl_mul_sign_clear; [|reflexivity].
    apply dbl_div_sign_clear; [reflexivity | apply dbl_of_Z_sign_clear, Hu | left; reflexivity].
Qed.

Section SelectLoop.
Variables (now : Z) (e : PersonalityEngine).

Let score := messageScore now e.

Lemma selectLoop_keeps_pointer messages : forall i best bestScore,
  is_Some best -> is_Some (selectLoop now e messages i best bestScore).
Proof.
  induction messages as [|m rest IH]; intros i best bestScore H; simpl.
  - exact H.
  - destruct (flt_gt _ _); apply IH; eauto.
Qed.

(** The loop invariant: the pointer kept so far, if any, is to a message
    before [i] whose score is [bestScore].  The result is then either
    that pointer or a later message that beats [bestScore]; no message of
    the list has a greater score than the result, and every message
    between [i] and the result whose score is a number has a smaller
    one. *)
Lemma selectLoop_max messages : forall i best bestScore r mr,
  is_nan bestScore = false ->
  (forall k mk, best = Some (k, mk) -> (k < i)%nat /\ score mk = bestScore) ->
  selectLoop now e messages i best bestScore = Some (r, mr) ->
  (best = Some (r, mr) \/
   ((i <= r)%nat /\ messages !! (r - i)%nat = Some mr /\
    sf_gt (score mr) bestScore = true)) /\
  (forall m, m ∈ messages -> sf_gt (score m) (score mr) = false) /\
  sf_gt bestScore (score mr) = false /\
  (forall j mj, (i <= j < r)%nat -> messages !! (j - i)%nat = Some mj ->
                is_nan (score mj) = false -> sf_gt (score mr) (score mj) = true).
Proof.
  induction messages as [|m rest IH]; intros i best bestScore r mr Hnan Hinv Hsel.
  - simpl in Hsel. destruct (Hinv _ _ Hsel) as [Hlt Hs].
    split; [left; exact Hsel|]. split; [intros m Hm; inversion Hm|].
    split; [rewrite <- Hs; apply sf_gt_irrefl|].
    intros j mj Hj. lia.
  - simpl in Hsel. fold score in Hsel. unfold flt_gt in Hsel.
    destruct (sf_gt (score m) bestScore) eqn:Hgt.
    + destruct (sf_gt_is_number _ _ Hgt) as [Hm _].
      apply IH in Hsel as (Hwho & Hall & Hle & Hfirst); [|exact Hm|].
      2:{ intros k mk [= <- <-]. split; [lia | reflexivity]. }
      assert (Hbeat : (i <= r)%nat /\ (m :: rest) !! (r - i)%nat = Some mr /\
                      sf_gt (score mr) bestScore = true).
      { destruct Hwho as [[= <- <-] | (Hir & Hlook & Hgt')].
        - replace (i - i)%nat with 0%nat by lia. auto with lia.
        - replace (r - i)%nat with (S (r - S i)) by lia.
          split; [lia|]. split; [exact Hlook|].
          apply (sf_gt_trans _ (score m)); assumption. }
      split; [right; exact Hbeat|].
      split; [|split].
      * intros m' Hm'. apply elem_of_cons in Hm' as [-> | Hm']; auto.
      * apply (sf_gt_le_trans (score m)); assumption.
      * intros j mj Hj Hlook Hmj.
        destruct (decide (j = i)) as [-> | Hne].
        -- replace (i - i)%nat with 0%nat in Hlook by lia.
           injection Hlook as <-.
           destruct Hwho as [[= <- <-] | (_ & _ & Hgt')]; [lia | exact Hgt'].
        -- replace (j - i)%nat with (S (j - S i)) in Hlook by lia.
           apply (Hfirst j mj); [lia | exact Hlook | exact Hmj].
    + apply IH in Hsel as (Hwho & Hall & Hle & Hfirst); [|exact Hnan|].
      2:{ intros k mk Hk. destruct (Hinv _ _ Hk). split; [lia | assumption]. }
      split; [|split; [|split]].
      * destruct Hwho as [Hb | (Hir & Hlook & Hgt')]; [left; exact Hb | right].
        replace (r - i)%nat with (S (r - S i)) by lia. auto with lia.
      * intros m' Hm'. apply elem_of_cons in Hm' as [-> | Hm']; auto.
        apply (sf_le_trans _ bestScore); assumption.
      * exact Hle.
      * intros j mj Hj Hlook Hmj.
        destruct Hwho as [Hb | (Hir & Hlook' & Hgt')].
        { destruct (Hinv _ _ Hb). lia. }
        destruct (decide (j = i)) as [-> | Hne].
        -- replace (i - i)%nat with 0%nat in Hlook by lia.
           injection Hlook as <-.
           apply (sf_le_gt_trans _ bestScore); assumption.
        -- replace (j - i)%nat with (S (j - S i)) in Hlook by lia.
           apply (Hfirst j mj); [lia | exact Hlook | exact Hmj].
Qed.
End SelectLoop.

Lemma partition_RESPONSE_COUNT e :
  length (messageBank e) = ResponseType_to_nat RESPONSE_COUNT ->
  partition RESPONSE_COUNT e = [].
Proof.
  intros H. unfold partition. rewrite lookup_ge_None_2; [reflexivity | lia].
Qed.

(** What [selectBestMessage] returns for a real response type. *)
Lemma selectBestMessage_some now type e i message :
  selectBestMessage now type e = Some (i, message) ->
  partition type e !! i = Some message /\
  (forall m, m ∈ partition type e ->
             flt_gt (messageScore now e m) (messageScore now e message) = false) /\
  (forall j mj, (j < i)%nat -> partition type e !! j = Some mj ->
                is_nan (messageScore now e mj) = false ->
                flt_gt (messageScore now e message) (messageScore now e mj) = true).
Proof.
  unfold selectBestMessage. destruct (_ || _); [discriminate|]. intros Hsel.
  apply selectLoop_max in Hsel as (Hwho & Hall & _ & Hfirst);
    [| reflexivity | discriminate].
  destruct Hwho as [Hb | (_ & Hlook & _)]; [discriminate|].
  rewrite Nat.sub_0_r in Hlook. split; [exact Hlook|]. split; [exact Hall|].
  intros j mj Hj Hlook'. apply (Hfirst j mj); [lia|].
  rewrite Nat.sub_0_r. exact Hlook'.
Qed.

Lemma selectBestMessage_none_empty now type e :
  partition type e = [] -> selectBestMessage now type e = None.
Proof.
  intros H. unfold selectBestMessage. rewrite H, bool_decide_eq_true_2 by reflexivity.
  rewrite orb_true_r. reflexivity.
Qed.

(** A real response type with a non-empty partition and valid counters
    always gets a message. *)
Lemma selectBestMessage_is_Some now type e :
  type <> RESPONSE_COUNT ->
  partition type e <> [] ->
  countersValid (partition type e) ->
  is_Some (selectBestMessage now type e).
Proof.
  intros Ht Hne Hvalid. unfold selectBestMessage.
  assert (Hidx : (ResponseType_to_nat RESPONSE_COUNT <=? ResponseType_to_nat type)%nat = false).
  { apply Nat.leb_gt. destruct type; simpl; try lia. contradiction. }
  rewrite Hidx, bool_decide_eq_false_2 by exact Hne. simpl orb.
  destruct (partition type e) as [|m rest]; [contradiction|].
  inversion Hvalid as [|? ? Hm _]; subst. simpl.
  rewrite sign_clear_gt_minus_one by (apply messageScore_sign_clear; lia).
  apply selectLoop_keeps_pointer. eauto.
Qed.

Lemma ResponseType_to_nat_inj t1 t2 :
  ResponseType_to_nat t1 = ResponseType_to_nat t2 -> t1 = t2.
Proof. destruct t1, t2; simpl; intros H; congruence. Qed.

Lemma alter_as_insert {A} (f : A -> A) (l : list A) (i : nat) (x : A) :
  l !! i = Some x -> alter f i l = <[i := f x]> l.
Proof.
  revert i. induction l as [|y l IH]; intros [|i] H; simpl in *; try discriminate.
  - injection H as ->. reflexivity.
  - f_equal. apply IH, H.
Qed.

(** The partitions after [messageBank[type]] has been changed by [f]. *)
Lemma partition_alter f type type' e :
  f [] = [] ->
  partition type'
    (set_messageBank (alter f (ResponseType_to_nat type) (messageBank e)) e) =
  if decide (type' = type) then f (partition type e) else partition type' e.
Proof.
  intros Hf. unfold partition. simpl messageBank. case_decide as Ht.
  - subst type'. rewrite list_lookup_alter_eq.
    destruct (messageBank e !! ResponseType_to_nat type); simpl; auto.
  - rewrite list_lookup_alter_ne; [reflexivity|].
    intros Heq. apply Ht. symmetry. apply ResponseType_to_nat_inj, Heq.
Qed.

(** [selectBestMessage] returns exactly the first message of maximal
    score. *)
Lemma selectBestMessage_first_max now type e i message :
  type <> RESPONSE_COUNT ->
  countersValid (partition type e) ->
  partition type e !! i = Some message ->
  (forall m, m ∈ partition type e ->
             flt_gt (messageScore now e m) (messageScore now e message) = false) ->
  (forall j mj, (j < i)%nat -> partition type e !! j = Some mj ->
                flt_gt (messageScore now e message) (messageScore now e mj) = true) ->
  selectBestMessage now type e = Some (i, message).
Proof.
  intros Ht Hvalid Hlook Hmax Hfirst.
  assert (Hne : partition type e <> []).
  { intros Hnil. rewrite Hnil in Hlook. discriminate. }
  destruct (selectBestMessage_is_Some now type e Ht Hne Hvalid) as [[r mr] Hsel].
  destruct (selectBestMessage_some _ _ _ _ _ Hsel) as (Hr & Hrmax & Hrfirst).
  assert (Hnum : is_nan (messageScore now e message) = false).
  { apply sign_clear_is_number, messageScore_sign_clear.
    unfold countersValid in Hvalid. rewrite Forall_lookup in Hvalid.
    specialize (Hvalid _ _ Hlook). simpl in Hvalid. lia. }
  destruct (lt_eq_lt_dec r i) as [[Hlt | Heq] | Hgt].
  - specialize (Hfirst _ _ Hlt Hr).
    rewrite (Hrmax message) in Hfirst; [discriminate|].
    eapply list_elem_of_lookup_2, Hlook.
  - subst r. rewrite Hlook in Hr. injection Hr as <-. exact Hsel.
  - specialize (Hrfirst _ _ Hgt Hlook Hnum).
    rewrite (Hmax mr) in Hrfirst; [discriminate|].
    eapply list_elem_of_lookup_2, Hr.
Qed.

Lemma generateCaringResponse_cannot_respond now type e :
  canRespondNow now e = false -> generateCaringResponse now type e = (EmptyString, e).
Proof. intros H. unfold generateCaringResponse. rewrite H. reflexivity. Qed.

Lemma generateCaringResponse_fallback now type e :
  canRespondNow now e = true -> partition type e = [] ->
  generateCaringResponse now type e = (FALLBACK_MESSAGE, e).
Proof.
  intros Hcan Hnil. unfold generateCaringResponse.
  rewrite Hcan, selectBestMessage_none_empty by exact Hnil. reflexivity.
Qed.

Lemma generateCaringResponse_text now type e i message :
  canRespondNow now e = true ->
  selectBestMessage now type e = Some (i, message) ->
  fst (generateCaringResponse now type e) = personalizeMessage (text message) e.
Proof.
  intros Hcan Hsel. unfold generateCaringResponse. rewrite Hcan, Hsel. reflexivity.
Qed.

Lemma generateCaringResponse_partition now type e i message type' :
  canRespondNow now e = true ->
  selectBestMessage now type e = Some (i, message) ->
  partition type' (snd (generateCaringResponse now type e)) =
  if decide (type' = type) then <[i := markUsed now message]> (partition type e)
  else partition type' e.
Proof.
  intros Hcan Hsel. unfold generateCaringResponse. rewrite Hcan, Hsel. simpl.
  change (partition type' (set_history ?h (set_lastMessageTime ?t ?x)))
    with (partition type' x).
  rewrite partition_alter by reflexivity.
  case_decide; [|reflexivity].
  apply alter_as_insert. apply (selectBestMessage_some _ _ _ _ _ Hsel).
Qed.

Lemma textsNonEmpty_elem type e message :
  textsNonEmpty type e = true -> message ∈ partition type e ->
  personalizeMessage (text message) e <> EmptyString.
Proof.
  unfold textsNonEmpty. intros H Hm. rewrite forallb_forall in H.
  apply list_elem_of_In, H in Hm.
  destruct (personalizeMessage (text message) e); [discriminate Hm | discriminate].
Qed.

(** C2 (counterexample).  The booted engine has no Break messages; with the
    cooldown elapsed and responses enabled the selector returns the fixed
    text, not the empty string. *)
Lemma empty_partition_returns_fallback_text :
  partition RESPONSE_BREAK bootedEngine = [] /\
  canRespondNow 6000 bootedEngine = true /\
  fst (generateCaringResponse 6000 RESPONSE_BREAK bootedEngine)
  = "I care about you! 💚"%string.
Proof. vm_compute. repeat split. Qed.

(** C2 (amended).  Provided no message of the partition personalizes to the
    empty string (which holds in every engine that started from the
    constructor, [textsNonEmpty_reachable]), [generateCaringResponse] returns
    the empty string if and only if responses are disabled or the 32-bit
    difference [millis() - lastMessageTime] does not exceed
    [responseCooldown].  [lastMessageTime] is 0 after construction and is
    set to [now] only by a call that returns a catalog message: an empty
    result leaves the engine as it is, and so does the fallback.  When the
    partition is empty (and the engine may respond) the result is the fixed
    text ["I care about you! 💚"], and the engine is left unchanged. *)
Theorem generateCaringResponse_empty_iff now type e :
  textsNonEmpty type e = true ->
  (fst (generateCaringResponse now type e) = EmptyString <->
   canRespond e = false \/
   ulong_sub now (lastMessageTime e) <= responseCooldown e) /\
  (canRespondNow now e = true -> partition type e = [] ->
   generateCaringResponse now type e = (FALLBACK_MESSAGE, e)) /\
  (canRespondNow now e = false ->
   generateCaringResponse now type e = (EmptyString, e)) /\
  (forall i message,
      canRespondNow now e = true ->
      selectBestMessage now type e = Some (i, message) ->
      lastMessageTime (snd (generateCaringResponse now type e)) = now) /\
  (forall boot, lastMessageTime (initialize boot PersonalityEngine_ctor) = 0).
Proof.
  intros Htexts.
  split; [|split; [apply generateCaringResponse_fallback|split;
                   [apply generateCaringResponse_cannot_respond|split]]].
  - assert (Hcan : canRespondNow now e = false <->
                   canRespond e = false \/
                   ulong_sub now (lastMessageTime e) <= responseCooldown e).
    { unfold canRespondNow. rewrite andb_false_iff, Z.ltb_ge. reflexivity. }
    rewrite <- Hcan. split.
    + intros Hempty. destruct (canRespondNow now e) eqn:E; [exfalso | reflexivity].
      destruct (selectBestMessage now type e) as [[i m]|] eqn:Hsel.
      * rewrite (generateCaringResponse_text _ _ _ _ _ E Hsel) in Hempty.
        apply (textsNonEmpty_elem type e m Htexts); [|exact Hempty].
        eapply list_elem_of_lookup_2. apply (selectBestMessage_some _ _ _ _ _ Hsel).
      * unfold generateCaringResponse in Hempty. rewrite E, Hsel in Hempty.
        discriminate Hempty.
    + intros E. rewrite generateCaringResponse_cannot_respond by exact E. reflexivity.
  - intros i message Hcan Hsel. unfold generateCaringResponse.
    rewrite Hcan, Hsel. reflexivity.
  - intros boot. reflexivity.
Qed.

Lemma generateCaringResponse_empty_iff_witness :
  let e := snd (generateCaringResponse 6000 RESPONSE_HYDRATION bootedEngine) in
  textsNonEmpty RESPONSE_MOVEMENT e = true /\
  (fst (generateCaringResponse 9000 RESPONSE_MOVEMENT e) = EmptyString <->
   canRespond e = false \/
   ulong_sub 9000 (lastMessageTime e) <= responseCooldown e).
Proof.
  set (e := snd (generateCaringResponse 6000 RESPONSE_HYDRATION bootedEngine)).
  assert (H : textsNonEmpty RESPONSE_MOVEMENT e = true) by (vm_compute; reflexivity).
  split; [exact H|].
  exact (proj1 (generateCaringResponse_empty_iff 9000 RESPONSE_MOVEMENT e H)).
Defined.

(** C4 (counterexample).  The booted engine after three ticks at 121 minutes
    of inactivity is Worried/Worried.  Its Hydration partition has eleven
    messages, one of them for Worried care and mood.  A selection at 6 s and
    the next one at 12 s both return that message. *)
Lemma worried_hydration_message_repeats :
  let first := generateCaringResponse 6000 RESPONSE_HYDRATION worriedEngine in
  let second := generateCaringResponse 12000 RESPONSE_HYDRATION (snd first) in
  length (partition RESPONSE_HYDRATION worriedEngine) = 11%nat /\
  fst first =
    "Please, friend - you really need to drink some water now. I'm worried about you! 💧"%string /\
  fst second = fst first.
Proof. vm_compute. repeat split. Qed.

(** C4 (amended).  Two consecutive successful selections from a partition
    can return the same text.  A successful selection returns the
    personalized text of the message [selectBestMessage] points to and marks
    that message alone ([useCount + 1], [timestamp = now]); the next
    selection from the partition returns the same message again exactly when,
    after the marking, no message of the partition scores higher than it and
    every message before it scores lower. *)
Theorem generateCaringResponse_marks_selected now type e i message :
  canRespondNow now e = true ->
  countersValid (partition type e) ->
  selectBestMessage now type e = Some (i, message) ->
  let e' := snd (generateCaringResponse now type e) in
  let marked := markUsed now message in
  fst (generateCaringResponse now type e) = personalizeMessage (text message) e /\
  partition type e' = <[i := marked]> (partition type e) /\
  (forall type', type' <> type -> partition type' e' = partition type' e) /\
  useCount marked = useCount message + 1 /\
  (forall now', elapsedMillis now' marked = ulong_sub now' now) /\
  (forall now',
      selectBestMessage now' type e' = Some (i, marked) <->
      (forall m, m ∈ partition type e' ->
                 flt_gt (messageScore now' e' m) (messageScore now' e' marked) = false) /\
      (forall j mj, (j < i)%nat -> partition type e' !! j = Some mj ->
                    flt_gt (messageScore now' e' marked) (messageScore now' e' mj) = true)).
Proof.
  intros Hcan Hvalid Hsel. cbv zeta.
  destruct (selectBestMessage_some _ _ _ _ _ Hsel) as (Hlook & _ & _).
  assert (Hpart : partition type (snd (generateCaringResponse now type e)) =
                  <[i := markUsed now message]> (partition type e)).
  { rewrite (generateCaringResponse_partition _ _ _ _ _ type Hcan Hsel).
    case_decide; [reflexivity | contradiction]. }
  assert (Hlook' : partition type (snd (generateCaringResponse now type e)) !! i =
                   Some (markUsed now message)).
  { rewrite Hpart. apply list_lookup_insert_eq. apply (lookup_lt_Some _ _ _ Hlook). }
  assert (Hvalid' : countersValid (partition type (snd (generateCaringResponse now type e)))).
  { rewrite Hpart. apply Forall_insert; [exact Hvalid|].
    unfold countersValid in Hvalid. rewrite Forall_lookup in Hvalid.
    specialize (Hvalid _ _ Hlook). simpl in *. lia. }
  assert (Ht : type <> RESPONSE_COUNT).
  { intros ->. unfold selectBestMessage in Hsel.
    rewrite Nat.leb_refl in Hsel. discriminate Hsel. }
  split; [apply (generateCaringResponse_text _ _ _ _ _ Hcan Hsel)|].
  split; [exact Hpart|].
  split.
  { intros type' Hne. rewrite (generateCaringResponse_partition _ _ _ _ _ type' Hcan Hsel).
    case_decide; [contradiction | reflexivity]. }
  split; [reflexivity|]. split; [reflexivity|].
  intros now'. split.
  - intros Hsel'. destruct (selectBestMessage_some _ _ _ _ _ Hsel') as (_ & Hmax & Hfirst).
    split; [exact Hmax|].
    intros j mj Hj Hmj. apply (Hfirst j mj Hj Hmj).
    apply sign_clear_is_number, messageScore_sign_clear.
    unfold countersValid in Hvalid'. rewrite Forall_lookup in Hvalid'.
    specialize (Hvalid' _ _ Hmj). simpl in Hvalid'. lia.
  - intros [Hmax Hfirst].
    apply selectBestMessage_first_max; assumption.
Qed.

Lemma generateCaringResponse_marks_selected_witness :
  let message := mkMessage
    "Please, {name} - you really need to drink some water now. I'm worried about you! 💧"
    MOOD_WORRIED CARE_WORRIED 0 0 in
  canRespondNow 6000 worriedEngine = true /\
  countersValid (partition RESPONSE_HYDRATION worriedEngine) /\
  selectBestMessage 6000 RESPONSE_HYDRATION worriedEngine = Some (10%nat, message) /\
  partition RESPONSE_HYDRATION
    (snd (generateCaringResponse 6000 RESPONSE_HYDRATION worriedEngine)) =
  <[10%nat := markUsed 6000 message]> (partition RESPONSE_HYDRATION worriedEngine).
Proof.
  set (message := mkMessage _ MOOD_WORRIED CARE_WORRIED 0 0).
  assert (Hcan : canRespondNow 6000 worriedEngine = true) by (vm_compute; reflexivity).
  assert (Hvalid : countersValid (partition RESPONSE_HYDRATION worriedEngine)).
  { vm_compute. repeat constructor; discriminate. }
  assert (Hsel : selectBestMessage 6000 RESPONSE_HYDRATION worriedEngine
                 = Some (10%nat, message)) by (vm_compute; reflexivity).
  split; [exact Hcan|]. split; [exact Hvalid|]. split; [exact Hsel|].
  exact (proj1 (proj2 (generateCaringResponse_marks_selected
                         6000 RESPONSE_HYDRATION worriedEngine 10 message
                         Hcan Hvalid Hsel))).
Defined.

(** The loop body computes the four-term sum: skipping a term that does not
    apply is the same as adding 0. *)
Lemma messageScore_weightedSum now e message :
  messageScore now e message = weightedSum now e message.
Proof.
  unfold messageScore, weightedSum, careMatchBonus, moodMatchBonus, recencyBonus,
    frequencyBonus, minutesOf, elapsedMillis.
  do 2 f_equal. repeat case_decide; vm_compute; reflexivity.
Qed.

Lemma elapsedMillis_range now message : 0 <= elapsedMillis now message <= ELAPSED_MAX.
Proof.
  unfold elapsedMillis, ulong_sub, ELAPSED_MAX.
  pose proof (Z.mod_pos_bound (now - timestamp message) ULONG_MODULUS eq_refl) as H.
  change ULONG_MODULUS with 4294967296 in *. lia.
Qed.

(** When [elapsed] milliseconds have passed since the message was used the
    clock reads [(timestamp + elapsed) mod 2^32], and the difference the
    loop computes is [elapsed] modulo 2^32. *)
Lemma elapsedMillis_after message elapsed :
  elapsedMillis ((timestamp message + elapsed) mod ULONG_MODULUS) message =
  elapsed mod ULONG_MODULUS.
Proof.
  unfold elapsedMillis, ulong_sub. rewrite Zminus_mod_idemp_l.
  f_equal. lia.
Qed.

(** C8 (counterexample).  A message last used at clock value 0.  After
    4294967295 ms its recency term is above 14316, the plain product of 0.2
    and the minutes; one millisecond later the 32-bit difference has wrapped
    and the term is 0.  No cap makes "0.2 times the minutes since last use,
    capped" agree with the code at both moments: agreement at the second
    forces the cap to be 0, and the term at the first is not 0. *)
Lemma recency_bonus_wraps_without_cap :
  let unused := mkMessage "Hey there! You need to hydrate! 💧" MOOD_CARING CARE_GENTLE 0 0 in
  sf_gt (recencyBonus (ELAPSED_MAX mod ULONG_MODULUS) unused) (dbl_of_Z 14316) = true /\
  recencyBonus ((ELAPSED_MAX + 1) mod ULONG_MODULUS) unused = d0_0 /\
  ~ exists cap : double,
      recencyBonus (ELAPSED_MAX mod ULONG_MODULUS) unused
      = cappedRecencyBonus cap ELAPSED_MAX /\
      recencyBonus ((ELAPSED_MAX + 1) mod ULONG_MODULUS) unused
      = cappedRecencyBonus cap (ELAPSED_MAX + 1).
Proof.
  cbv zeta. split; [vm_compute; reflexivity|]. split; [vm_compute; reflexivity|].
  intros [cap [H1 H2]]. unfold cappedRecencyBonus in H1, H2. cbv zeta in H1, H2.
  destruct (sf_lt (dbl_mul (minutesOf (ELAPSED_MAX + 1)) d0_2) cap).
  - vm_compute in H2. discriminate H2.
  - rewrite <- H2 in H1. vm_compute in H1. discriminate H1.
Qed.

(** C8 (amended).  For a real response type whose partition is not empty
    (and whose counters are valid, as they are in every engine that started
    from the constructor, [countersValid_reachable]): the score of each
    candidate is the sum, accumulated in a [float] from 0, of 0.4 if its
    care level is the current one (else 0), 0.3 if its mood is the current
    one (else 0), 0.2 times the minutes since it was last used, and 0.1
    times [10/(useCount+1)].  The recency term has no cap: the minutes come
    from the 32-bit difference [millis() - timestamp], which is the time
    that has passed modulo 2^32 ms, so the term grows with the time up to
    4294967295 ms and starts again from 0 after that.  The message selected
    is in the partition and no candidate has a greater score. *)
Theorem selectBestMessage_weighted_score now type e :
  type <> RESPONSE_COUNT ->
  partition type e <> [] ->
  countersValid (partition type e) ->
  (forall m, messageScore now e m = weightedSum now e m) /\
  (forall m, recencyBonus now m = dbl_mul (minutesOf (elapsedMillis now m)) d0_2) /\
  (forall m elapsed,
      elapsedMillis ((timestamp m + elapsed) mod ULONG_MODULUS) m
      = elapsed mod ULONG_MODULUS) /\
  exists i message,
    selectBestMessage now type e = Some (i, message) /\
    partition type e !! i = Some message /\
    forall m, m ∈ partition type e ->
              flt_gt (messageScore now e m) (messageScore now e message) = false.
Proof.
  intros Ht Hne Hvalid.
  split; [intros m; apply messageScore_weightedSum|].
  split; [intros m; reflexivity|].
  split; [intros m elapsed; apply elapsedMillis_after|].
  destruct (selectBestMessage_is_Some now type e Ht Hne Hvalid) as [[i message] Hsel].
  exists i, message. split; [exact Hsel|].
  destruct (selectBestMessage_some _ _ _ _ _ Hsel) as (Hlook & Hmax & _).
  split; assumption.
Qed.

Lemma selectBestMessage_weighted_score_witness :
  RESPONSE_CONCERN <> RESPONSE_COUNT /\
  partition RESPONSE_CONCERN worriedEngine <> [] /\
  countersValid (partition RESPONSE_CONCERN worriedEngine) /\
  exists i message,
    selectBestMessage 6000 RESPONSE_CONCERN worriedEngine = Some (i, message) /\
    partition RESPONSE_CONCERN worriedEngine !! i = Some message /\
    forall m, m ∈ partition RESPONSE_CONCERN worriedEngine ->
              flt_gt (messageScore 6000 worriedEngine m)
                     (messageScore 6000 worriedEngine message) = false.
Proof.
  assert (Ht : RESPONSE_CONCERN <> RESPONSE_COUNT) by discriminate.
  assert (Hne : partition RESPONSE_CONCERN worriedEngine <> []) by (vm_compute; discriminate).
  assert (Hvalid : countersValid (partition RESPONSE_CONCERN worriedEngine)).
  { vm_compute. repeat constructor; discriminate. }
  split; [exact Ht|]. split; [exact Hne|]. split; [exact Hvalid|].
  exact (proj2 (proj2 (proj2 (selectBestMessage_weighted_score
                                6000 RESPONSE_CONCERN worriedEngine Ht Hne Hvalid)))).
Defined.

(** * The preference learner *)

Lemma userPreferences_reduceCareLevel e :
  userPreferences (reduceCareLevel e) = userPreferences e.
Proof. unfold reduceCareLevel. destruct (_ <? _); reflexivity. Qed.

Lemma userPreferences_recordUserResponse type effective e :
  userPreferences (recordUserResponse type effective e) =
  if learningEnabled e
  then userPreferences (adaptToUser type (outcomeTarget effective) e)
  else userPreferences e.
Proof.
  unfold recordUserResponse.
  set (e1 := set_history _ e).
  change (learningEnabled e1) with (learningEnabled e).
  assert (H : userPreferences (adaptToUser type (outcomeTarget effective) e1) =
              userPreferences (adaptToUser type (outcomeTarget effective) e)).
  { unfold adaptToUser. destruct (_ <? _)%nat; reflexivity. }
  fold (outcomeTarget effective).
  destruct (learningEnabled e);
    (destruct (_ && _); [rewrite userPreferences_reduceCareLevel|]); auto.
Qed.

Lemma preference_adaptToUser type target e type' :
  type <> RESPONSE_COUNT ->
  preference type' (adaptToUser type target e) =
  if decide (type' = type)
  then (fun old => movingAverage old (adaptationRate e) target) <$> preference type e
  else preference type' e.
Proof.
  intros Ht. unfold preference, adaptToUser.
  assert (Hidx : (ResponseType_to_nat type <? ResponseType_to_nat RESPONSE_COUNT)%nat = true).
  { apply Nat.ltb_lt. destruct type; simpl; try lia. contradiction. }
  rewrite Hidx. simpl userPreferences. case_decide as Heq.
  - subst type'. rewrite list_lookup_alter_eq. reflexivity.
  - rewrite list_lookup_alter_ne; [reflexivity|].
    intros H. apply Heq. symmetry. apply ResponseType_to_nat_inj, H.
Qed.

(** C9 (counterexample).  With learning switched off by [enableLearning],
    recording an effective Hydration response leaves the stored value at
    0.5, where the moving average with rate 0.1 gives 0.55. *)
Lemma learning_disabled_keeps_preference :
  let e := enableLearning false bootedEngine in
  preference RESPONSE_HYDRATION e = Some (to_float d0_5) /\
  preference RESPONSE_HYDRATION (recordUserResponse RESPONSE_HYDRATION true e)
  = Some (to_float d0_5) /\
  movingAverage (to_float d0_5) (adaptationRate e) (outcomeTarget true)
  = to_float (decimal 55 100) /\
  to_float (decimal 55 100) <> to_float d0_5.
Proof. vm_compute. repeat split. discriminate. Qed.

(** C9 (amended).  While learning is enabled, recording an outcome for a
    response type with [recordUserResponse] replaces the stored value by
    [old*(1-rate) + (effective ? 1 : 0)*rate], where [rate] is the engine's
    adaptation rate, and leaves the values of all other response types
    unchanged; the constructor sets the rate to 0.1. *)
Theorem recordUserResponse_moving_average type effective e old :
  learningEnabled e = true ->
  type <> RESPONSE_COUNT ->
  preference type e = Some old ->
  let e' := recordUserResponse type effective e in
  preference type e' =
    Some (movingAverage old (adaptationRate e) (outcomeTarget effective)) /\
  (forall type', type' <> type -> preference type' e' = preference type' e) /\
  adaptationRate PersonalityEngine_ctor = to_float (decimal 1 10).
Proof.
  intros Hlearn Ht Hold. cbv zeta.
  assert (Hprefs : forall type',
    preference type' (recordUserResponse type effective e) =
    preference type' (adaptToUser type (outcomeTarget effective) e)).
  { intros type'. unfold preference.
    rewrite userPreferences_recordUserResponse, Hlearn. reflexivity. }
  split; [|split].
  - rewrite Hprefs, preference_adaptToUser by exact Ht.
    case_decide; [|contradiction]. rewrite Hold. reflexivity.
  - intros type' Hne. rewrite Hprefs, preference_adaptToUser by exact Ht.
    case_decide; [contradiction | reflexivity].
  - vm_compute. reflexivity.
Qed.

Lemma recordUserResponse_moving_average_witness :
  learningEnabled bootedEngine = true /\
  RESPONSE_HYDRATION <> RESPONSE_COUNT /\
  preference RESPONSE_HYDRATION bootedEngine = Some (to_float d0_5) /\
  preference RESPONSE_HYDRATION (recordUserResponse RESPONSE_HYDRATION true bootedEngine)
  = Some (movingAverage (to_float d0_5) (adaptationRate bootedEngine) (outcomeTarget true)).
Proof.
  assert (Hlearn : learningEnabled bootedEngine = true) by reflexivity.
  assert (Ht : RESPONSE_HYDRATION <> RESPONSE_COUNT) by discriminate.
  assert (Hold : preference RESPONSE_HYDRATION bootedEngine = Some (to_float d0_5))
    by (vm_compute; reflexivity).
  split; [exact Hlearn|]. split; [exact Ht|]. split; [exact Hold|].
  exact (proj1 (recordUserResponse_moving_average
                  RESPONSE_HYDRATION true bootedEngine (to_float d0_5) Hlearn Ht Hold)).
Defined.

(** * The message queue *)

Ltac branches :=
  repeat first
    [ progress case_decide
    | match goal with
      | |- context [if ?b then _ else _] => destruct b
      | |- context [match ?x with Some _ => _ | None => _ end] => destruct x as [[? ?]|]
      end ].

Lemma messageQueue_escalateCareLevel e :
  messageQueue (escalateCareLevel e) = messageQueue e.
Proof. unfold escalateCareLevel. branches; reflexivity. Qed.

Lemma messageQueue_reduceCareLevel e :
  messageQueue (reduceCareLevel e) = messageQueue e.
Proof. unfold reduceCareLevel. branches; reflexivity. Qed.

Lemma messageQueue_adaptToUser t x e : messageQueue (adaptToUser t x e) = messageQueue e.
Proof. unfold adaptToUser. branches; reflexivity. Qed.

Lemma messageQueue_updateMood behavior e :
  messageQueue (updateMood behavior e) = messageQueue e.
Proof.
  unfold updateMood.
  set (e1 := set_caringIntensity _ (setMood _ e)).
  assert (H1 : messageQueue e1 = messageQueue e) by (unfold e1, setMood; branches; reflexivity).
  branches; rewrite ?messageQueue_escalateCareLevel, ?messageQueue_reduceCareLevel; exact H1.
Qed.

Lemma messageQueue_recordUserResponse t effective e :
  messageQueue (recordUserResponse t effective e) = messageQueue e.
Proof.
  unfold recordUserResponse.
  set (e1 := set_history _ e).
  set (e2 := if learningEnabled e1 then _ else e1).
  assert (H2 : messageQueue e2 = messageQueue e).
  { subst e2. destruct (learningEnabled e1); [rewrite messageQueue_adaptToUser|]; reflexivity. }
  destruct (_ && _); [rewrite messageQueue_reduceCareLevel|]; exact H2.
Qed.

Lemma messageQueue_recordUserIgnored t e :
  messageQueue (recordUserIgnored t e) = messageQueue e.
Proof.
  unfold recordUserIgnored.
  set (e1 := set_history _ e).
  set (e2 := if learningEnabled e1 then _ else e1).
  assert (H2 : messageQueue e2 = messageQueue e).
  { subst e2. destruct (learningEnabled e1); [rewrite messageQueue_adaptToUser|]; reflexivity. }
  destruct (_ && _); [rewrite messageQueue_escalateCareLevel|]; exact H2.
Qed.

Lemma messageQueue_generateCaringResponse now t e :
  messageQueue (snd (generateCaringResponse now t e)) = messageQueue e.
Proof. unfold generateCaringResponse. branches; reflexivity. Qed.

Lemma queueMessage_length message e :
  (length (messageQueue e) <= 10)%nat -> (length (messageQueue (queueMessage message e)) <= 10)%nat.
Proof.
  intros H. unfold queueMessage.
  destruct (length (messageQueue e) <? 10)%nat eqn:E; [|exact H].
  apply Nat.ltb_lt in E. simpl. rewrite length_app. simpl. lia.
Qed.

(** Every public call keeps a queue of at most ten entries that way. *)
Lemma call_queue_bounded c e :
  (length (messageQueue e) <= 10)%nat -> (length (messageQueue (call c e)) <= 10)%nat.
Proof.
  intros H. destruct c; simpl call; try exact H.
  - rewrite messageQueue_updateMood. exact H.
  - unfold setMood. branches; exact H.
  - rewrite messageQueue_recordUserResponse. exact H.
  - rewrite messageQueue_recordUserIgnored. exact H.
  - rewrite messageQueue_generateCaringResponse. exact H.
  - unfold generateUrgentResponse.
    rewrite messageQueue_generateCaringResponse, messageQueue_escalateCareLevel. exact H.
  - unfold generateCelebrationMessage.
    pose proof (messageQueue_generateCaringResponse now RESPONSE_CELEBRATION e) as Hq.
    destruct (generateCaringResponse now RESPONSE_CELEBRATION e). simpl in *.
    rewrite Hq. exact H.
  - apply queueMessage_length, H.
  - unfold queueMessage_type.
    pose proof (messageQueue_generateCaringResponse now type e) as Hq.
    destruct (generateCaringResponse now type e) as [message e1]. simpl in Hq.
    destruct (negb _); [apply queueMessage_length|]; rewrite Hq; exact H.
  - unfold getNextMessage. destruct (messageQueue e) as [|m rest] eqn:E; simpl.
    + rewrite E. simpl. lia.
    + simpl in H. lia.
  - rewrite messageQueue_adaptToUser. exact H.
Qed.

(** C10.  In every state the engine reaches from its constructor the queue
    holds at most 10 entries, and every call preserves that bound;
    [queueMessage(const String&)] on a queue of 10 entries drops the message
    and returns the engine as it was.  ([queueMessage(ResponseType)] goes
    through the same check and leaves a full queue as it is too; the message
    it drops was generated first.) *)
Theorem messageQueue_bounded :
  (forall calls, (length (messageQueue (run calls PersonalityEngine_ctor)) <= 10)%nat) /\
  (forall c e, (length (messageQueue e) <= 10)%nat ->
               (length (messageQueue (call c e)) <= 10)%nat) /\
  (forall message e, length (messageQueue e) = 10%nat -> queueMessage message e = e) /\
  (forall now type e, length (messageQueue e) = 10%nat ->
                      messageQueue (queueMessage_type now type e) = messageQueue e).
Proof.
  split; [|split; [|split]].
  - intros calls.
    assert (Hgen : forall e, (length (messageQueue e) <= 10)%nat ->
                             (length (messageQueue (run calls e)) <= 10)%nat).
    { induction calls as [|c calls IH]; intros e H; [exact H|].
      rewrite run_cons. apply IH, call_queue_bounded, H. }
    apply Hgen. simpl. lia.
  - exact call_queue_bounded.
  - intros message e H. unfold queueMessage. rewrite H. reflexivity.
  - intros now type e H. unfold queueMessage_type.
    pose proof (messageQueue_generateCaringResponse now type e) as Hq.
    destruct (generateCaringResponse now type e) as [message e1]. simpl in Hq.
    destruct (negb _); [|exact Hq].
    unfold queueMessage. rewrite Hq, H. exact Hq.
Qed.

Lemma messageQueue_bounded_witness :
  length (messageQueue fullQueueEngine) = 10%nat /\
  queueMessage "Time to adjust that posture! Stretch it out! 🧘" fullQueueEngine
  = fullQueueEngine.
Proof.
  assert (H : length (messageQueue fullQueueEngine) = 10%nat) by (vm_compute; reflexivity).
  split; [exact H|].
  exact (proj1 (proj2 (proj2 messageQueue_bounded)) _ fullQueueEngine H).
Defined.

(** * Reachable engines *)

Lemma bankValid_push_back_all type msgs e :
  Forall messageValid msgs -> bankValid e -> bankValid (push_back_all type msgs e).
Proof.
  intros Hm He. unfold bankValid, push_back_all. simpl messageBank.
  apply Forall_alter; [exact He|].
  intros messages _ H. apply Forall_app_2; assumption.
Qed.

Lemma bankValid_initialize now e : bankValid e -> bankValid (initialize now e).
Proof.
  intros H. unfold initialize, initializeMessageBank.
  change (bankValid (set_learningStartTime now ?x)) with (bankValid x).
  unfold loadGreetingMessages, loadConcernMessages, loadCelebrationMessages,
    loadEncouragementMessages, loadPostureMessages, loadMovementMessages,
    loadHydrationMessages.
  repeat (apply bankValid_push_back_all;
          [repeat (constructor; [split; [discriminate | reflexivity]|]); constructor|]).
  exact H.
Qed.

Lemma messageBank_escalateCareLevel e : messageBank (escalateCareLevel e) = messageBank e.
Proof. unfold escalateCareLevel. branches; reflexivity. Qed.

Lemma messageBank_reduceCareLevel e : messageBank (reduceCareLevel e) = messageBank e.
Proof. unfold reduceCareLevel. branches; reflexivity. Qed.

Lemma messageBank_adaptToUser t x e : messageBank (adaptToUser t x e) = messageBank e.
Proof. unfold adaptToUser. branches; reflexivity. Qed.

Lemma messageBank_queueMessage message e : messageBank (queueMessage message e) = messageBank e.
Proof. unfold queueMessage. branches; reflexivity. Qed.

Lemma bankValid_generateCaringResponse now t e :
  bankValid e -> bankValid (snd (generateCaringResponse now t e)).
Proof.
  intros H. unfold generateCaringResponse.
  destruct (negb _); [exact H|].
  destruct (selectBestMessage now t e) as [[i m]|]; [|exact H].
  unfold bankValid. simpl messageBank.
  apply Forall_alter; [exact H|]. intros messages _ Hm.
  apply Forall_alter; [exact Hm|]. intros m' _ [Hcount Htext].
  split; [simpl; lia | exact Htext].
Qed.

Lemma bankValid_call c e : bankValid e -> bankValid (call c e).
Proof.
  intros H. destruct c; simpl call; try exact H.
  - apply bankValid_initialize, H.
  - unfold bankValid, updateMood, setMood.
    branches; rewrite ?messageBank_escalateCareLevel, ?messageBank_reduceCareLevel; exact H.
  - unfold setMood. branches; exact H.
  - unfold bankValid, recordUserResponse.
    branches; rewrite ?messageBank_reduceCareLevel, ?messageBank_adaptToUser; exact H.
  - unfold bankValid, recordUserIgnored.
    branches; rewrite ?messageBank_escalateCareLevel, ?messageBank_adaptToUser; exact H.
  - apply bankValid_generateCaringResponse, H.
  - unfold generateUrgentResponse. apply bankValid_generateCaringResponse.
    unfold bankValid. rewrite messageBank_escalateCareLevel. exact H.
  - unfold generateCelebrationMessage.
    pose proof (bankValid_generateCaringResponse now RESPONSE_CELEBRATION e H) as Hb.
    destruct (generateCaringResponse now RESPONSE_CELEBRATION e). exact Hb.
  - unfold bankValid. rewrite messageBank_queueMessage. exact H.
  - unfold queueMessage_type.
    pose proof (bankValid_generateCaringResponse now type e H) as Hb.
    destruct (generateCaringResponse now type e) as [message e1]. simpl in Hb.
    unfold bankValid. destruct (negb _); [rewrite messageBank_queueMessage|]; exact Hb.
  - unfold getNextMessage. destruct (messageQueue e); exact H.
  - unfold bankValid. rewrite messageBank_adaptToUser. exact H.
Qed.

Lemma bankValid_reachable calls : bankValid (run calls PersonalityEngine_ctor).
Proof.
  assert (Hgen : forall e, bankValid e -> bankValid (run calls e)).
  { induction calls as [|c calls IH]; intros e H; [exact H|].
    rewrite run_cons. apply IH, bankValid_call, H. }
  apply Hgen. unfold bankValid. simpl messageBank. repeat constructor.
Qed.

Lemma bankValid_partition type e : bankValid e -> Forall messageValid (partition type e).
Proof.
  intros Hb. unfold partition.
  destruct (messageBank _ !! _) as [messages|] eqn:E; simpl; [|constructor].
  unfold bankValid in Hb. rewrite Forall_lookup in Hb. apply (Hb _ _ E).
Qed.

(** The counters of every partition are valid in every engine that started
    from the constructor. *)
Lemma countersValid_reachable calls type :
  countersValid (partition type (run calls PersonalityEngine_ctor)).
Proof.
  pose proof (bankValid_partition type _ (bankValid_reachable calls)) as H.
  unfold countersValid. eapply Forall_impl; [exact H|]. intros m [Hm _]. exact Hm.
Qed.

Lemma personalizeMessage_startsPlain baseMessage e :
  startsPlain baseMessage = true ->
  String_isEmpty (personalizeMessage baseMessage e) = false.
Proof.
  destruct baseMessage as [|c rest]; [discriminate|]. cbn [startsPlain]. intros Hc.
  unfold personalizeMessage, String_replace. cbn [replace_from String.prefix].
  destruct (Ascii.ascii_dec "{" c) as [<- | _]; [discriminate Hc | reflexivity].
Qed.

(** No message personalizes to the empty string, whatever the user name,
    in any engine that started from the constructor. *)
Lemma textsNonEmpty_reachable calls type :
  textsNonEmpty type (run calls PersonalityEngine_ctor) = true.
Proof.
  pose proof (bankValid_partition type _ (bankValid_reachable calls)) as H.
  unfold textsNonEmpty. apply forallb_forall. intros m Hm.
  rewrite Forall_forall in H. apply list_elem_of_In, H in Hm as [_ Hm].
  rewrite personalizeMessage_startsPlain by exact Hm. reflexivity.
Qed.

(** * Further properties of the engine *)

(** ** The cooldown *)

Lemma generateCaringResponse_selected_fields now type e i message :
  canRespondNow now e = true ->
  selectBestMessage now type e = Some (i, message) ->
  let e' := snd (generateCaringResponse now type e) in
  lastMessageTime e' = now /\
  responseCooldown e' = responseCooldown e /\
  canRespond e' = canRespond e /\
  messageQueue e' = messageQueue e /\
  lastResponseType (history e') = type.
Proof.
  intros Hcan Hsel. unfold generateCaringResponse. rewrite Hcan, Hsel.
  simpl. repeat split.
Qed.

(** X1.  After a selection at [now] that returned a catalog message, every
    call made no more than [responseCooldown] milliseconds later, for any
    response type, returns the empty string and leaves the engine as it
    is. *)
Theorem cooldown_after_selection now type e i message now' type' :
  canRespondNow now e = true ->
  selectBestMessage now type e = Some (i, message) ->
  ulong_sub now' now <= responseCooldown e ->
  let e' := snd (generateCaringResponse now type e) in
  generateCaringResponse now' type' e' = (EmptyString, e').
Proof.
  intros Hcan Hsel Hnear. cbv zeta.
  destruct (generateCaringResponse_selected_fields _ _ _ _ _ Hcan Hsel)
    as (Hlast & Hcool & _).
  apply generateCaringResponse_cannot_respond.
  unfold canRespondNow. rewrite Hlast, Hcool.
  apply andb_false_iff. right. apply Z.ltb_ge. exact Hnear.
Qed.

Lemma cooldown_after_selection_witness :
  let message := mkMessage
    "Please, {name} - you really need to drink some water now. I'm worried about you! 💧"
    MOOD_WORRIED CARE_WORRIED 0 0 in
  canRespondNow 6000 worriedEngine = true /\
  selectBestMessage 6000 RESPONSE_HYDRATION worriedEngine = Some (10%nat, message) /\
  ulong_sub 11000 6000 <= responseCooldown worriedEngine /\
  fst (generateCaringResponse 11000 RESPONSE_CONCERN
         (snd (generateCaringResponse 6000 RESPONSE_HYDRATION worriedEngine)))
  = EmptyString.
Proof.
  set (message := mkMessage _ MOOD_WORRIED CARE_WORRIED 0 0).
  assert (Hcan : canRespondNow 6000 worriedEngine = true) by (vm_compute; reflexivity).
  assert (Hsel : selectBestMessage 6000 RESPONSE_HYDRATION worriedEngine
                 = Some (10%nat, message)) by (vm_compute; reflexivity).
  assert (Hnear : ulong_sub 11000 6000 <= responseCooldown worriedEngine)
    by (vm_compute; discriminate).
  split; [exact Hcan|]. split; [exact Hsel|]. split; [exact Hnear|].
  exact (f_equal fst (cooldown_after_selection 6000 RESPONSE_HYDRATION worriedEngine
                        10 message 11000 RESPONSE_CONCERN Hcan Hsel Hnear)).
Defined.

(** X2.  The cooldown test survives the wrap of the 32-bit millisecond
    clock: if [elapsed] milliseconds (fewer than 2^32) have passed since the
    last message, the clock then reads [(lastMessageTime + elapsed) mod 2^32]
    and the engine may respond exactly when responses are enabled and
    [elapsed] exceeds the cooldown. *)
Theorem canRespondNow_across_wrap elapsed e :
  0 <= elapsed < ULONG_MODULUS ->
  canRespondNow ((lastMessageTime e + elapsed) mod ULONG_MODULUS) e =
  canRespond e && (responseCooldown e <? elapsed).
Proof.
  intros He. unfold canRespondNow, ulong_sub.
  rewrite Zminus_mod_idemp_l.
  replace (lastMessageTime e + elapsed - lastMessageTime e) with elapsed by lia.
  rewrite Z.mod_small by exact He. reflexivity.
Qed.

Lemma canRespondNow_across_wrap_witness :
  let e := set_lastMessageTime 4294966296 bootedEngine in
  0 <= 6000 < ULONG_MODULUS /\
  canRespondNow 5000 e = true.
Proof.
  assert (He : 0 <= 6000 < ULONG_MODULUS) by (change ULONG_MODULUS with 4294967296; lia).
  split; [exact He|].
  exact (canRespondNow_across_wrap 6000 (set_lastMessageTime 4294966296 bootedEngine) He).
Defined.

(** ** The caring urgency *)

Ltac urgency_cases behavior :=
  let i := fresh "i" in
  let E1 := fresh "E1" in
  let E2 := fresh "E2" in
  let E3 := fresh "E3" in
  unfold highUrgency, lowUrgency, calculateCaringUrgency, NORMAL_INACTIVITY_THRESHOLD,
    CONCERNED_INACTIVITY_THRESHOLD, URGENT_INACTIVITY_THRESHOLD;
  destruct behavior as [i h m p br su po];
  cbn [inactivityMinutes needsHydration needsMovement needsPostureAdjustment];
  destruct (120 <? i) eqn:E1; [apply Z.ltb_lt in E1 | apply Z.ltb_ge in E1];
  (destruct (60 <? i) eqn:E2; [apply Z.ltb_lt in E2 | apply Z.ltb_ge in E2]);
  (destruct (30 <? i) eqn:E3; [apply Z.ltb_lt in E3 | apply Z.ltb_ge in E3]);
  try lia;
  destruct h, m, p.

(** The branch of [updateMood] that raises the care level, in terms of the
    behavior.  With 31 to 60 minutes of inactivity a hydration need and a
    posture need are enough: in [float] arithmetic 0.3 + 0.3 + 0.1 is above
    the [double] 0.7. *)
Lemma highUrgency_behavior behavior :
  highUrgency behavior = true <->
  120 < inactivityMinutes behavior \/
  (60 < inactivityMinutes behavior /\
   needsHydration behavior || (needsMovement behavior && needsPostureAdjustment behavior)
   = true) \/
  (30 < inactivityMinutes behavior /\
   needsHydration behavior && (needsMovement behavior || needsPostureAdjustment behavior)
   = true).
Proof.
  urgency_cases behavior;
    match goal with
    | |- ?lhs = true <-> _ =>
        let v := eval vm_compute in lhs in
        replace lhs with v by (vm_compute; reflexivity)
    end;
    simpl andb; simpl orb;
    (split; [intros H; try discriminate H; auto with lia
            | intros [H | [[H1 H2] | [H1 H2]]]; try discriminate; auto; lia ]).
Qed.

Lemma caringIntensity_updateMood behavior e :
  caringIntensity (updateMood behavior e) = calculateCaringUrgency behavior.
Proof.
  unfold updateMood, escalateCareLevel, reduceCareLevel. branches; reflexivity.
Qed.

(** X3.  The caring urgency of every behavior snapshot is a number between
    0 and 1 (the sum of the parts can reach 1.4 and is clamped), and
    [updateMood] stores exactly that value as the caring intensity. *)
Theorem calculateCaringUrgency_range behavior :
  sign_clear (calculateCaringUrgency behavior) = true /\
  flt_gt_dbl (calculateCaringUrgency behavior) d1_0 = false /\
  forall e, caringIntensity (updateMood behavior e) = calculateCaringUrgency behavior.
Proof.
  split; [|split; [|intros e; apply caringIntensity_updateMood]].
  - urgency_cases behavior; vm_compute; reflexivity.
  - unfold flt_gt_dbl. urgency_cases behavior; vm_compute; reflexivity.
Qed.

(** X4.  An [updateMood] tick raises the care level (by one step) exactly
    when the level is below Worried and the inactivity is above 120
    minutes, or above 60 minutes with a hydration need or with both a
    movement and a posture need, or above 30 minutes with a hydration need
    and a movement or posture need. *)
Theorem updateMood_escalates_iff behavior e :
  careValue (updateMood behavior e) = careValue e + 1 <->
  careValue e < CareLevel_to_Z CARE_WORRIED /\
  (120 < inactivityMinutes behavior \/
   (60 < inactivityMinutes behavior /\
    needsHydration behavior || (needsMovement behavior && needsPostureAdjustment behavior)
    = true) \/
   (30 < inactivityMinutes behavior /\
    needsHydration behavior && (needsMovement behavior || needsPostureAdjustment behavior)
    = true)).
Proof.
  rewrite <- highUrgency_behavior, careValue_updateMood. fold (highUrgency behavior).
  simpl CareLevel_to_Z.
  destruct (highUrgency behavior); simpl.
  - destruct (careValue e <? 3) eqn:E; [apply Z.ltb_lt in E | apply Z.ltb_ge in E].
    + split; auto.
    + destruct (lowUrgency behavior && (0 <? careValue e)); split; intros; lia.
  - destruct (lowUrgency behavior && (0 <? careValue e));
      split; intros H; try lia; destruct H as [_ H]; discriminate H.
Qed.

Lemma highUrgency_not_low behavior : highUrgency behavior = true -> lowUrgency behavior = false.
Proof.
  intros Hh. apply highUrgency_behavior in Hh.
  destruct (lowUrgency behavior) eqn:Hl; [|reflexivity].
  apply lowUrgency_behavior in Hl as (Hi & Hhyd & Hmp).
  unfold NORMAL_INACTIVITY_THRESHOLD in Hi.
  destruct Hh as [H | [[H _] | [H _]]]; lia.
Qed.

(** X5.  Ticks with the same behavior in a row, from a care level between
    Gentle and Worried: [n] ticks of high urgency raise the level by [n]
    steps, stopping at Worried; [n] ticks of low urgency lower it by [n]
    steps, stopping at Gentle; ticks of urgency between 0.3 and 0.7 leave it
    where it is. *)
Theorem repeated_ticks_care_level behavior n e :
  careInRange e ->
  let e' := repeatCall n (updateMood behavior) e in
  (highUrgency behavior = true ->
   careValue e' = Z.min (CareLevel_to_Z CARE_WORRIED) (careValue e + Z.of_nat n)) /\
  (lowUrgency behavior = true ->
   careValue e' = Z.max (CareLevel_to_Z CARE_GENTLE) (careValue e - Z.of_nat n)) /\
  (highUrgency behavior = false -> lowUrgency behavior = false ->
   careValue e' = careValue e).
Proof.
  unfold careInRange, repeatCall. simpl CareLevel_to_Z. intros Hr. cbv zeta.
  split; [|split].
  - intros Hh. pose proof (highUrgency_not_low _ Hh) as Hl.
    induction n as [|n IH]; [simpl; lia|].
    rewrite Nat2Z.inj_succ. simpl Nat.iter.
    rewrite careValue_updateMood. fold (highUrgency behavior). rewrite Hh, Hl, IH.
    simpl andb.
    destruct (_ <? 3) eqn:E; [apply Z.ltb_lt in E | apply Z.ltb_ge in E]; lia.
  - intros Hl.
    assert (Hh : highUrgency behavior = false).
    { destruct (highUrgency behavior) eqn:Hh; [|reflexivity].
      apply highUrgency_not_low in Hh. congruence. }
    induction n as [|n IH]; [simpl; lia|].
    rewrite Nat2Z.inj_succ. simpl Nat.iter.
    rewrite careValue_updateMood. fold (highUrgency behavior). rewrite Hh, Hl, IH.
    simpl andb.
    destruct (0 <? _) eqn:E; [apply Z.ltb_lt in E | apply Z.ltb_ge in E]; lia.
  - intros Hh Hl.
    induction n as [|n IH]; [reflexivity|].
    simpl Nat.iter. rewrite careValue_updateMood. fold (highUrgency behavior).
    rewrite Hh, Hl, IH. reflexivity.
Qed.

Lemma repeated_ticks_care_level_witness :
  careInRange bootedEngine /\
  highUrgency idleBehavior = true /\
  careValue (repeatCall 5 (updateMood idleBehavior) bootedEngine)
  = Z.min (CareLevel_to_Z CARE_WORRIED) (careValue bootedEngine + Z.of_nat 5).
Proof.
  assert (Hr : careInRange bootedEngine) by (vm_compute; split; discriminate).
  assert (Hh : highUrgency idleBehavior = true) by (vm_compute; reflexivity).
  split; [exact Hr|]. split; [exact Hh|].
  exact (proj1 (repeated_ticks_care_level idleBehavior 5 bootedEngine Hr) Hh).
Defined.

(** ** Ignored reminders in a row *)

(** X6.  Starting from an ignore count of 0 and a care level between Gentle
    and Worried, [n] calls of [recordUserIgnored] in a row leave the count
    at [n]; the first two do not touch the care level and each later one
    raises it one step, stopping at Worried. *)
Theorem ignored_streak responseType n e :
  consecutiveIgnored (history e) = 0 ->
  careInRange e ->
  let e' := repeatCall n (recordUserIgnored responseType) e in
  consecutiveIgnored (history e') = Z.of_nat n /\
  careValue e' =
    Z.min (CareLevel_to_Z CARE_WORRIED) (careValue e + Z.max 0 (Z.of_nat n - 2)).
Proof.
  unfold careInRange, repeatCall. simpl CareLevel_to_Z. intros H0 Hr. cbv zeta.
  induction n as [|n [IHc IHv]]; [simpl; lia|].
  rewrite Nat2Z.inj_succ. simpl Nat.iter.
  rewrite consecutiveIgnored_recordUserIgnored, careValue_recordUserIgnored, IHc, IHv.
  split; [lia|].
  destruct (3 <=? Z.of_nat n + 1) eqn:E3; [apply Z.leb_le in E3 | apply Z.leb_gt in E3];
    simpl andb; [|lia].
  destruct (_ <? 3) eqn:E; [apply Z.ltb_lt in E | apply Z.ltb_ge in E]; lia.
Qed.

Lemma ignored_streak_witness :
  consecutiveIgnored (history bootedEngine) = 0 /\
  careInRange bootedEngine /\
  careValue (repeatCall 4 (recordUserIgnored RESPONSE_MOVEMENT) bootedEngine)
  = Z.min (CareLevel_to_Z CARE_WORRIED) (careValue bootedEngine + Z.max 0 (Z.of_nat 4 - 2)).
Proof.
  assert (H0 : consecutiveIgnored (history bootedEngine) = 0) by reflexivity.
  assert (Hr : careInRange bootedEngine) by (vm_compute; split; discriminate).
  split; [exact H0|]. split; [exact Hr|].
  exact (proj2 (ignored_streak RESPONSE_MOVEMENT 4 bootedEngine H0 Hr)).
Defined.

(** ** Learning from ignored reminders *)

Lemma userPreferences_escalateCareLevel e :
  userPreferences (escalateCareLevel e) = userPreferences e.
Proof. unfold escalateCareLevel. destruct (_ <? _); reflexivity. Qed.

Lemma userPreferences_recordUserIgnored type e :
  userPreferences (recordUserIgnored type e) =
  if learningEnabled e
  then userPreferences (adaptToUser type (to_float d0_2) e)
  else userPreferences e.
Proof.
  unfold recordUserIgnored.
  set (e1 := set_history _ e).
  change (learningEnabled e1) with (learningEnabled e).
  assert (H : userPreferences (adaptToUser type (to_float d0_2) e1) =
              userPreferences (adaptToUser type (to_float d0_2) e)).
  { unfold adaptToUser. destruct (_ <? _)%nat; reflexivity. }
  destruct (learningEnabled e);
    (destruct (_ && _); [rewrite userPreferences_escalateCareLevel|]); auto.
Qed.

(** X7.  While learning is enabled, an ignored reminder moves the stored
    effectiveness of its response type toward 0.2, not toward 0:
    the new value is [old*(1-rate) + 0.2*rate]; the values of the other
    response types stay as they are.  With learning disabled no value
    changes. *)
Theorem recordUserIgnored_moving_average type e old :
  type <> RESPONSE_COUNT ->
  preference type e = Some old ->
  let e' := recordUserIgnored type e in
  (learningEnabled e = true ->
   preference type e' = Some (movingAverage old (adaptationRate e) (to_float d0_2))) /\
  (forall type', type' <> type -> preference type' e' = preference type' e) /\
  (learningEnabled e = false -> userPreferences e' = userPreferences e).
Proof.
  intros Ht Hold. cbv zeta.
  assert (Hprefs : forall type',
    preference type' (recordUserIgnored type e) =
    if learningEnabled e
    then preference type' (adaptToUser type (to_float d0_2) e)
    else preference type' e).
  { intros type'. unfold preference. rewrite userPreferences_recordUserIgnored.
    destruct (learningEnabled e); reflexivity. }
  split; [|split].
  - intros Hlearn. rewrite Hprefs, Hlearn, preference_adaptToUser by exact Ht.
    case_decide; [|contradiction]. rewrite Hold. reflexivity.
  - intros type' Hne. rewrite Hprefs. destruct (learningEnabled e); [|reflexivity].
    rewrite preference_adaptToUser by exact Ht.
    case_decide; [contradiction | reflexivity].
  - intros Hlearn. rewrite userPreferences_recordUserIgnored, Hlearn. reflexivity.
Qed.

Lemma recordUserIgnored_moving_average_witness :
  RESPONSE_POSTURE <> RESPONSE_COUNT /\
  preference RESPONSE_POSTURE bootedEngine = Some (to_float d0_5) /\
  learningEnabled bootedEngine = true /\
  preference RESPONSE_POSTURE (recordUserIgnored RESPONSE_POSTURE bootedEngine)
  = Some (movingAverage (to_float d0_5) (adaptationRate bootedEngine) (to_float d0_2)).
Proof.
  assert (Ht : RESPONSE_POSTURE <> RESPONSE_COUNT) by discriminate.
  assert (Hold : preference RESPONSE_POSTURE bootedEngine = Some (to_float d0_5))
    by (vm_compute; reflexivity).
  assert (Hlearn : learningEnabled bootedEngine = true) by reflexivity.
  split; [exact Ht|]. split; [exact Hold|]. split; [exact Hlearn|].
  exact (proj1 (recordUserIgnored_moving_average
                  RESPONSE_POSTURE bootedEngine (to_float d0_5) Ht Hold) Hlearn).
Defined.

(** ** Urgent and celebration messages *)

Lemma canRespondNow_escalateCareLevel now e :
  canRespondNow now (escalateCareLevel e) = canRespondNow now e.
Proof. unfold escalateCareLevel. destruct (_ <? _); reflexivity. Qed.

(** X8.  [generateUrgentResponse] raises the care level before it asks for a
    message, so the level goes up one step (stopping at Worried) whether or
    not a message comes out: while the engine cannot respond the result is
    the empty string and the only change is the escalation. *)
Theorem generateUrgentResponse_escalates_first now e :
  careInRange e ->
  careValue (snd (generateUrgentResponse now e)) =
    Z.min (CareLevel_to_Z CARE_WORRIED) (careValue e + 1) /\
  (canRespondNow now e = false ->
   generateUrgentResponse now e = (EmptyString, escalateCareLevel e)).
Proof.
  unfold careInRange, generateUrgentResponse. simpl CareLevel_to_Z. intros Hr. split.
  - rewrite careValue_generateCaringResponse, careValue_escalateCareLevel.
    destruct (_ <? 3) eqn:E; [apply Z.ltb_lt in E | apply Z.ltb_ge in E]; lia.
  - intros Hcan. apply generateCaringResponse_cannot_respond.
    rewrite canRespondNow_escalateCareLevel. exact Hcan.
Qed.

Lemma generateUrgentResponse_escalates_first_witness :
  careInRange bootedEngine /\
  canRespondNow 1000 bootedEngine = false /\
  generateUrgentResponse 1000 bootedEngine = (EmptyString, escalateCareLevel bootedEngine).
Proof.
  assert (Hr : careInRange bootedEngine) by (vm_compute; split; discriminate).
  assert (Hcan : canRespondNow 1000 bootedEngine = false) by (vm_compute; reflexivity).
  split; [exact Hr|]. split; [exact Hcan|].
  exact (proj2 (generateUrgentResponse_escalates_first 1000 bootedEngine Hr) Hcan).
Defined.

Lemma append_nonempty_r s c t : String.append s (String c t) <> EmptyString.
Proof. destruct s; discriminate. Qed.

(** X9.  [generateCelebrationMessage] never returns the empty string: the
    suffix [" " + achievement + "! 🎉"] is appended to whatever
    [generateCaringResponse] returns, and while the engine cannot respond
    the result is that suffix alone and the engine is unchanged. *)
Theorem generateCelebrationMessage_suffix now achievement e :
  let suffix := String.append " " (String.append achievement "! 🎉") in
  fst (generateCelebrationMessage now achievement e) =
    String.append (fst (generateCaringResponse now RESPONSE_CELEBRATION e)) suffix /\
  fst (generateCelebrationMessage now achievement e) <> EmptyString /\
  (canRespondNow now e = false ->
   generateCelebrationMessage now achievement e = (suffix, e)).
Proof.
  cbv zeta. unfold generateCelebrationMessage.
  split; [|split].
  - destruct (generateCaringResponse now RESPONSE_CELEBRATION e); reflexivity.
  - destruct (generateCaringResponse now RESPONSE_CELEBRATION e) as [s e1]. simpl fst.
    apply append_nonempty_r.
  - intros Hcan. rewrite generateCaringResponse_cannot_respond by exact Hcan. reflexivity.
Qed.

Lemma generateCelebrationMessage_suffix_witness :
  canRespondNow 1000 bootedEngine = false /\
  generateCelebrationMessage 1000 "You stretched" bootedEngine
  = (" You stretched! 🎉"%string, bootedEngine).
Proof.
  assert (Hcan : canRespondNow 1000 bootedEngine = false) by (vm_compute; reflexivity).
  split; [exact Hcan|].
  exact (proj2 (proj2 (generateCelebrationMessage_suffix 1000 "You stretched" bootedEngine))
           Hcan).
Defined.

(** ** Queueing a generated message *)

(** X10.  [queueMessage(ResponseType)]: while the engine cannot respond
    nothing is generated and the engine is unchanged; when a catalog message
    is selected and the queue already holds 10 entries, the text is dropped
    but the selection has happened: the cooldown restarts at [now] and the
    selected message is marked as used. *)
Theorem queueMessage_type_edge_cases now type e :
  (canRespondNow now e = false -> queueMessage_type now type e = e) /\
  (forall i message,
      canRespondNow now e = true ->
      selectBestMessage now type e = Some (i, message) ->
      length (messageQueue e) = 10%nat ->
      let e' := queueMessage_type now type e in
      messageQueue e' = messageQueue e /\
      lastMessageTime e' = now /\
      partition type e' = <[i := markUsed now message]> (partition type e)).
Proof.
  split.
  - intros Hcan. unfold queueMessage_type.
    rewrite generateCaringResponse_cannot_respond by exact Hcan. reflexivity.
  - intros i message Hcan Hsel Hfull. cbv zeta.
    destruct (generateCaringResponse_selected_fields _ _ _ _ _ Hcan Hsel)
      as (Hlast & _ & _ & Hq & _).
    pose proof (generateCaringResponse_partition _ _ _ _ _ type Hcan Hsel) as Hpart.
    rewrite decide_True in Hpart by reflexivity.
    unfold queueMessage_type.
    destruct (generateCaringResponse now type e) as [text1 e1]. simpl in *.
    assert (Hdrop : forall s, queueMessage s e1 = e1).
    { intros s. unfold queueMessage. rewrite Hq, Hfull. reflexivity. }
    destruct (negb _); rewrite ?Hdrop; auto.
Qed.

Lemma queueMessage_type_edge_cases_witness :
  canRespondNow 1000 fullQueueEngine = false /\
  queueMessage_type 1000 RESPONSE_HYDRATION fullQueueEngine = fullQueueEngine.
Proof.
  assert (Hcan : canRespondNow 1000 fullQueueEngine = false) by (vm_compute; reflexivity).
  split; [exact Hcan|].
  exact (proj1 (queueMessage_type_edge_cases 1000 RESPONSE_HYDRATION fullQueueEngine) Hcan).
Defined.

(** ** The queue is first in, first out *)

Lemma queueMessage_room message e :
  (length (messageQueue e) < 10)%nat ->
  queueMessage message e = set_messageQueue (messageQueue e ++ [message]) e.
Proof.
  intros H. unfold queueMessage. apply Nat.ltb_lt in H. rewrite H. reflexivity.
Qed.

Lemma queueAll_room messages : forall e,
  (length (messageQueue e) + length messages <= 10)%nat ->
  queueAll messages e = set_messageQueue (messageQueue e ++ messages) e.
Proof.
  induction messages as [|m rest IH]; intros e H.
  - unfold queueAll. simpl. rewrite app_nil_r. destruct e; reflexivity.
  - unfold queueAll. simpl fold_left. fold (queueAll rest (queueMessage m e)).
    simpl in H. rewrite queueMessage_room by lia.
    rewrite IH by (simpl; rewrite length_app; simpl; lia).
    simpl. rewrite <- app_assoc. reflexivity.
Qed.

Lemma drainQueue_all : forall queue e,
  messageQueue e = queue ->
  drainQueue (length queue) e = (queue, set_messageQueue [] e).
Proof.
  induction queue as [|m rest IH]; intros e Hq.
  - simpl. rewrite <- Hq. destruct e; reflexivity.
  - simpl. unfold getNextMessage. rewrite Hq.
    rewrite (IH (set_messageQueue rest e)) by reflexivity. reflexivity.
Qed.

(** X11.  Messages queued while there is room are appended in order, and
    [getNextMessage] hands the queue out from the front: after queueing
    [messages] onto a queue with enough room, as many calls of
    [getNextMessage] as there are entries return the old entries followed
    by [messages], in that order, and leave the queue empty and the rest of
    the engine untouched.  On an empty queue [getNextMessage] returns the
    empty string. *)
Theorem messageQueue_fifo messages e :
  (length (messageQueue e) + length messages <= 10)%nat ->
  messageQueue (queueAll messages e) = messageQueue e ++ messages /\
  drainQueue (length (messageQueue e ++ messages)) (queueAll messages e) =
    (messageQueue e ++ messages, set_messageQueue [] e) /\
  (messageQueue e = [] -> getNextMessage e = (EmptyString, e)).
Proof.
  intros Hroom. rewrite queueAll_room by exact Hroom. split; [reflexivity|]. split.
  - rewrite (drainQueue_all (messageQueue e ++ messages)) by reflexivity. reflexivity.
  - intros Hq. unfold getNextMessage. rewrite Hq. reflexivity.
Qed.

Lemma messageQueue_fifo_witness :
  let messages := ["first"%string; "second"%string; "third"%string] in
  (length (messageQueue bootedEngine) + length messages <= 10)%nat /\
  fst (drainQueue 3 (queueAll messages bootedEngine)) = messages.
Proof.
  assert (Hroom : (length (messageQueue bootedEngine)
                   + length ["first"%string; "second"%string; "third"%string] <= 10)%nat)
    by (simpl; lia).
  split; [exact Hroom|].
  exact (f_equal fst (proj1 (proj2 (messageQueue_fifo
                        ["first"%string; "second"%string; "third"%string]
                        bootedEngine Hroom)))).
Defined.

(** ** What the selector returns *)

(** X12.  For a real response type with valid counters,
    [selectBestMessage] points to message [i] exactly when no message of the
    partition has a greater score and every message before [i] has a smaller
    one: among messages of equal highest score the first in catalog order is
    selected. *)
Theorem selectBestMessage_first_of_highest now type e i message :
  type <> RESPONSE_COUNT ->
  countersValid (partition type e) ->
  selectBestMessage now type e = Some (i, message) <->
  partition type e !! i = Some message /\
  (forall m, m ∈ partition type e ->
             flt_gt (messageScore now e m) (messageScore now e message) = false) /\
  (forall j mj, (j < i)%nat -> partition type e !! j = Some mj ->
                flt_gt (messageScore now e message) (messageScore now e mj) = true).
Proof.
  intros Ht Hvalid. split.
  - intros Hsel. destruct (selectBestMessage_some _ _ _ _ _ Hsel) as (Hlook & Hmax & Hfirst).
    split; [exact Hlook|]. split; [exact Hmax|].
    intros j mj Hj Hmj. apply (Hfirst j mj Hj Hmj).
    apply sign_clear_is_number, messageScore_sign_clear.
    unfold countersValid in Hvalid. rewrite Forall_lookup in Hvalid.
    specialize (Hvalid _ _ Hmj). simpl in Hvalid. lia.
  - intros (Hlook & Hmax & Hfirst). apply selectBestMessage_first_max; assumption.
Qed.

Lemma selectBestMessage_first_of_highest_witness :
  let message := mkMessage
    "I'm really worried now. Please take a moment for yourself! 🌸"
    MOOD_WORRIED CARE_WORRIED 0 0 in
  RESPONSE_CONCERN <> RESPONSE_COUNT /\
  countersValid (partition RESPONSE_CONCERN worriedEngine) /\
  (selectBestMessage 6000 RESPONSE_CONCERN worriedEngine = Some (3%nat, message) <->
   partition RESPONSE_CONCERN worriedEngine !! 3%nat = Some message /\
   (forall m, m ∈ partition RESPONSE_CONCERN worriedEngine ->
              flt_gt (messageScore 6000 worriedEngine m)
                     (messageScore 6000 worriedEngine message) = false) /\
   (forall j mj, (j < 3)%nat -> partition RESPONSE_CONCERN worriedEngine !! j = Some mj ->
                 flt_gt (messageScore 6000 worriedEngine message)
                        (messageScore 6000 worriedEngine mj) = true)).
Proof.
  set (message := mkMessage _ MOOD_WORRIED CARE_WORRIED 0 0).
  assert (Ht : RESPONSE_CONCERN <> RESPONSE_COUNT) by discriminate.
  assert (Hvalid : countersValid (partition RESPONSE_CONCERN worriedEngine)).
  { vm_compute. repeat constructor; discriminate. }
  split; [exact Ht|]. split; [exact Hvalid|].
  exact (selectBestMessage_first_of_highest 6000 RESPONSE_CONCERN worriedEngine 3 message
           Ht Hvalid).
Defined.

(** X13.  With valid counters [selectBestMessage] returns the null pointer
    only for the sentinel [RESPONSE_COUNT] or an empty partition: the scores
    are never NaN and never fall to the initial [bestScore] of -1, so a
    non-empty partition always yields a message. *)
Theorem selectBestMessage_null_iff now type e :
  countersValid (partition type e) ->
  selectBestMessage now type e = None <->
  type = RESPONSE_COUNT \/ partition type e = [].
Proof.
  intros Hvalid. split.
  - intros Hnone.
    destruct (decide (type = RESPONSE_COUNT)) as [Ht | Ht]; [left; exact Ht|].
    destruct (partition type e) as [|m rest] eqn:Hp; [right; reflexivity|].
    assert (Hne : partition type e <> []) by (rewrite Hp; discriminate).
    rewrite <- Hp in Hvalid.
    destruct (selectBestMessage_is_Some now type e Ht Hne Hvalid) as [x Hx].
    congruence.
  - intros [-> | Hnil].
    + unfold selectBestMessage. rewrite Nat.leb_refl. reflexivity.
    + apply selectBestMessage_none_empty, Hnil.
Qed.

Lemma selectBestMessage_null_iff_witness :
  countersValid (partition RESPONSE_GOODNIGHT bootedEngine) /\
  selectBestMessage 6000 RESPONSE_GOODNIGHT bootedEngine = None.
Proof.
  assert (Hvalid : countersValid (partition RESPONSE_GOODNIGHT bootedEngine))
    by (vm_compute; constructor).
  split; [exact Hvalid|].
  apply (proj2 (selectBestMessage_null_iff 6000 RESPONSE_GOODNIGHT bootedEngine Hvalid)).
  right. vm_compute. reflexivity.
Defined.

(** ** Personalization *)

Lemma replace_from_braceFree repl before rest :
  braceFree before = true ->
  replace_from "{name}" repl 0 (String.append before rest) =
  String.append before (replace_from "{name}" repl 0 rest).
Proof.
  induction before as [|c before IH]; [reflexivity|].
  cbn [braceFree]. intros H. apply andb_prop in H as [Hc Hb].
  cbn [String.append replace_from String.prefix].
  destruct (Ascii.ascii_dec "{" c) as [<- | _]; [discriminate Hc|].
  rewrite IH by exact Hb. reflexivity.
Qed.

Lemma prefix_append p s : String.prefix p (String.append p s) = true.
Proof.
  induction p as [|c p IH]; [destruct s; reflexivity|].
  cbn [String.append String.prefix].
  destruct (Ascii.ascii_dec c c) as [_ | Hne]; [exact IH | exfalso; apply Hne; reflexivity].
Qed.

Lemma replace_from_skip find repl dropped rest :
  replace_from find repl (String.length dropped) (String.append dropped rest) =
  replace_from find repl 0 rest.
Proof.
  induction dropped as [|c dropped IH]; [destruct rest; reflexivity|].
  cbn [String.length String.append replace_from]. exact IH.
Qed.

(** A placeholder at the front is replaced, and the scan goes on after
    it. *)
Lemma replace_from_hit repl rest :
  replace_from "{name}" repl 0 (String.append "{name}" rest) =
  String.append repl (replace_from "{name}" repl 0 rest).
Proof.
  change (String.append "{name}" rest) with (String "{" (String.append "name}" rest)).
  cbn [replace_from].
  assert (Hp : String.prefix "{name}" (String "{" (String.append "name}" rest)) = true)
    by exact (prefix_append "{name}" rest).
  rewrite Hp.
  change (String.length "{name}" - 1)%nat with (String.length "name}").
  rewrite replace_from_skip. reflexivity.
Qed.

Lemma append_empty_r s : String.append s EmptyString = s.
Proof. induction s as [|c s IH]; [reflexivity|]. simpl. rewrite IH. reflexivity. Qed.

(** X14.  [personalizeMessage] puts the user name where the first
    placeholder is and goes on after it: for a text [before{name}after]
    whose first part has no opening brace the result is [before], the user
    name as it is, and the personalized [after].  A text without an opening
    brace is returned unchanged. *)
Theorem personalizeMessage_substitutes before after e :
  braceFree before = true ->
  personalizeMessage (String.append before (String.append "{name}" after)) e =
    String.append before (String.append (userName e) (personalizeMessage after e)) /\
  personalizeMessage before e = before.
Proof.
  intros Hb. unfold personalizeMessage, String_replace. split.
  - rewrite replace_from_braceFree by exact Hb. f_equal.
    apply replace_from_hit.
  - rewrite <- (append_empty_r before) at 1.
    rewrite replace_from_braceFree by exact Hb. simpl. apply append_empty_r.
Qed.

Lemma personalizeMessage_substitutes_witness :
  braceFree "Roll those shoulders back, " = true /\
  personalizeMessage "Roll those shoulders back, {name}! Your spine will thank you! 💚"
    (setUserName "{name} Tim" bootedEngine)
  = "Roll those shoulders back, {name} Tim! Your spine will thank you! 💚"%string.
Proof.
  assert (Hb : braceFree "Roll those shoulders back, " = true) by reflexivity.
  split; [exact Hb|].
  exact (eq_trans
           (proj1 (personalizeMessage_substitutes "Roll those shoulders back, "
                     "! Your spine will thank you! 💚"
                     (setUserName "{name} Tim" bootedEngine) Hb))
           eq_refl).
Defined.

(** ** Names of moods and care levels *)

(** X15.  The status strings identify what they name: two engines with the
    same [getMoodString] have the same mood, two care levels with the same
    [getCaringPhrase] are equal, and only the sentinel mood is reported as
    ["Unknown"]. *)
Theorem status_strings_identify :
  (forall e1 e2, getMoodString e1 = getMoodString e2 -> currentMood e1 = currentMood e2) /\
  (forall l1 l2, getCaringPhrase l1 = getCaringPhrase l2 -> l1 = l2) /\
  (forall e, getMoodString e = "Unknown"%string <-> currentMood e = MOOD_COUNT).
Proof.
  split; [|split].
  - intros e1 e2. unfold getMoodString.
    destruct (currentMood e1), (currentMood e2); intros H; (reflexivity || discriminate H).
  - intros l1 l2. destruct l1, l2; intros H; (reflexivity || discriminate H).
  - intros e. unfold getMoodString.
    destruct (currentMood e); split; intros H; (reflexivity || discriminate H).
Qed.

Lemma status_strings_identify_witness :
  getMoodString worriedEngine = getMoodString (setMood MOOD_WORRIED bootedEngine) /\
  currentMood worriedEngine = currentMood (setMood MOOD_WORRIED bootedEngine).
Proof.
  assert (H : getMoodString worriedEngine = getMoodString (setMood MOOD_WORRIED bootedEngine))
    by (vm_compute; reflexivity).
  split; [exact H|].
  exact (proj1 status_strings_identify worriedEngine (setMood MOOD_WORRIED bootedEngine) H).
Defined.

(** ** The catalog *)

Lemma messageBank_push_back_all type msgs e :
  messageBank (push_back_all type msgs e) =
  alter (fun messages => messages ++ msgs) (ResponseType_to_nat type) (messageBank e).
Proof. reflexivity. Qed.

(** X16.  [initialize] appends the built-in messages to whatever each
    partition already holds (it does not clear the bank first): on an engine
    whose bank has its [RESPONSE_COUNT] slots, every partition afterwards is
    the old partition followed by the partition of a freshly booted engine,
    so a second [initialize] leaves every built-in message in the bank
    twice. *)
Theorem initialize_appends now type e :
  length (messageBank e) = ResponseType_to_nat RESPONSE_COUNT ->
  partition type (initialize now e) = partition type e ++ partition type bootedEngine.
Proof.
  intros Hlen. unfold partition, initialize, initializeMessageBank.
  change (messageBank (set_learningStartTime now ?x)) with (messageBank x).
  unfold loadGreetingMessages, loadConcernMessages, loadCelebrationMessages,
    loadEncouragementMessages, loadPostureMessages, loadMovementMessages,
    loadHydrationMessages.
  rewrite !messageBank_push_back_all.
  destruct (messageBank e) as [|p0 [|p1 [|p2 [|p3 [|p4 [|p5 [|p6 [|p7 [|p8 [|p9 [|p10 l]]]]]]]]]]];
    try discriminate Hlen.
  destruct type; cbn [ResponseType_to_nat alter list_alter lookup list_lookup default
    from_option]; rewrite ?app_nil_r; reflexivity.
Qed.

Lemma initialize_appends_witness :
  length (messageBank bootedEngine) = ResponseType_to_nat RESPONSE_COUNT /\
  partition RESPONSE_GREETING (initialize 9000 bootedEngine) =
  partition RESPONSE_GREETING bootedEngine ++ partition RESPONSE_GREETING bootedEngine.
Proof.
  assert (Hlen : length (messageBank bootedEngine) = ResponseType_to_nat RESPONSE_COUNT)
    by reflexivity.
  split; [exact Hlen|].
  exact (initialize_appends 9000 RESPONSE_GREETING bootedEngine Hlen).
Defined.

Lemma catalogEntry_alter_markUsed now i messages :
  map catalogEntry (alter (markUsed now) i messages) = map catalogEntry messages.
Proof.
  revert i. induction messages as [|m rest IH]; intros [|i]; simpl; try reflexivity.
  f_equal. apply IH.
Qed.

Lemma useCount_same messages :
  Forall2 (fun m m' : PersonalityMessage => useCount m <= useCount m') messages messages.
Proof. induction messages; constructor; [lia | assumption]. Qed.

Lemma useCount_alter_markUsed now i messages :
  Forall2 (fun m m' => useCount m <= useCount m') messages (alter (markUsed now) i messages).
Proof.
  revert i. induction messages as [|m rest IH]; intros [|i]; simpl.
  - constructor.
  - constructor.
  - constructor; [simpl; lia | apply useCount_same].
  - constructor; [lia | apply IH].
Qed.

(** After [generateCaringResponse] a partition is as before, or as before
    with one message marked as used. *)
Lemma generateCaringResponse_partition_cases now type e type' :
  partition type' (snd (generateCaringResponse now type e)) = partition type' e \/
  exists i, partition type' (snd (generateCaringResponse now type e)) =
            alter (markUsed now) i (partition type' e).
Proof.
  unfold generateCaringResponse.
  destruct (negb _); [left; reflexivity|].
  destruct (selectBestMessage now type e) as [[i m]|]; [|left; reflexivity].
  simpl snd.
  change (partition type' (set_history ?h (set_lastMessageTime ?t ?x)))
    with (partition type' x).
  rewrite partition_alter by reflexivity.
  case_decide as Ht; [subst; right; exists i; reflexivity | left; reflexivity].
Qed.

Lemma partition_same_bank type e e' :
  messageBank e' = messageBank e -> partition type e' = partition type e.
Proof. intros H. unfold partition. rewrite H. reflexivity. Qed.

Lemma messageBank_setMood m e : messageBank (setMood m e) = messageBank e.
Proof. unfold setMood. branches; reflexivity. Qed.

Lemma messageBank_updateMood behavior e : messageBank (updateMood behavior e) = messageBank e.
Proof.
  unfold updateMood.
  branches; rewrite ?messageBank_escalateCareLevel, ?messageBank_reduceCareLevel;
    apply messageBank_setMood.
Qed.

Lemma messageBank_recordUserResponse t effective e :
  messageBank (recordUserResponse t effective e) = messageBank e.
Proof.
  unfold recordUserResponse.
  branches; rewrite ?messageBank_reduceCareLevel, ?messageBank_adaptToUser; reflexivity.
Qed.

Lemma messageBank_recordUserIgnored t e :
  messageBank (recordUserIgnored t e) = messageBank e.
Proof.
  unfold recordUserIgnored.
  branches; rewrite ?messageBank_escalateCareLevel, ?messageBank_adaptToUser; reflexivity.
Qed.

Lemma call_partition_cases c e type :
  isInitialize c = false ->
  partition type (call c e) = partition type e \/
  exists now i, partition type (call c e) = alter (markUsed now) i (partition type e).
Proof.
  intros Hc. destruct c; try discriminate Hc; simpl call;
    try (left; reflexivity).
  - left. apply partition_same_bank, messageBank_updateMood.
  - left. apply partition_same_bank, messageBank_setMood.
  - left. apply partition_same_bank, messageBank_recordUserResponse.
  - left. apply partition_same_bank, messageBank_recordUserIgnored.
  - destruct (generateCaringResponse_partition_cases now type0 e type) as [H | [i H]];
      [left; exact H | right; exists now, i; exact H].
  - unfold generateUrgentResponse.
    destruct (generateCaringResponse_partition_cases now RESPONSE_CONCERN
                (escalateCareLevel e) type) as [H | [i H]];
      rewrite H, (partition_same_bank type e (escalateCareLevel e))
        by apply messageBank_escalateCareLevel;
      [left; reflexivity | right; exists now, i; reflexivity].
  - unfold generateCelebrationMessage.
    pose proof (generateCaringResponse_partition_cases now RESPONSE_CELEBRATION e type) as H.
    destruct (generateCaringResponse now RESPONSE_CELEBRATION e) as [s e1]. simpl in *.
    destruct H as [H | [i H]]; [left; exact H | right; exists now, i; exact H].
  - left. apply partition_same_bank, messageBank_queueMessage.
  - unfold queueMessage_type.
    pose proof (generateCaringResponse_partition_cases now type0 e type) as H.
    destruct (generateCaringResponse now type0 e) as [s e1]. simpl in H.
    assert (Hq : partition type (if negb (String_isEmpty s) then queueMessage s e1 else e1)
                 = partition type e1).
    { destruct (negb _); [apply partition_same_bank, messageBank_queueMessage | reflexivity]. }
    rewrite Hq.
    destruct H as [H | [i H]]; [left; exact H | right; exists now, i; exact H].
  - left. unfold getNextMessage. destruct (messageQueue e); reflexivity.
  - left. apply partition_same_bank, messageBank_adaptToUser.
Qed.

(** X17.  Apart from [initialize], no sequence of public calls adds,
    removes, reorders or rewrites a catalog entry: text, mood and care level
    of every message of every partition stay as they were, and no
    [useCount] ever goes down. *)
Theorem catalog_is_immutable calls type e :
  Forall (fun c => isInitialize c = false) calls ->
  map catalogEntry (partition type (run calls e)) = map catalogEntry (partition type e) /\
  Forall2 (fun m m' => useCount m <= useCount m')
    (partition type e) (partition type (run calls e)).
Proof.
  revert e. induction calls as [|c calls IH]; intros e Hcalls.
  - split; [reflexivity | apply useCount_same].
  - inversion Hcalls as [|? ? Hc Hrest]; subst. rewrite run_cons.
    destruct (IH (call c e) Hrest) as [IHcat IHuse].
    assert (Hstep : map catalogEntry (partition type (call c e))
                    = map catalogEntry (partition type e) /\
                    Forall2 (fun m m' => useCount m <= useCount m')
                      (partition type e) (partition type (call c e))).
    { destruct (call_partition_cases c e type Hc) as [H | (now & i & H)]; rewrite H.
      - split; [reflexivity | apply useCount_same].
      - split; [apply catalogEntry_alter_markUsed | apply useCount_alter_markUsed]. }
    destruct Hstep as [Hcat Huse]. split; [congruence|].
    eapply Forall2_trans; [|exact Huse|exact IHuse]. intros x y z. simpl. lia.
Qed.

Lemma catalog_is_immutable_witness :
  let calls := [CallUpdateMood idleBehavior;
                CallGenerateCaringResponse 6000 RESPONSE_HYDRATION;
                CallRecordUserIgnored RESPONSE_HYDRATION;
                CallGenerateUrgentResponse 12000] in
  Forall (fun c => isInitialize c = false) calls /\
  map catalogEntry (partition RESPONSE_HYDRATION (run calls bootedEngine))
  = map catalogEntry (partition RESPONSE_HYDRATION bootedEngine).
Proof.
  assert (H : Forall (fun c => isInitialize c = false)
                [CallUpdateMood idleBehavior;
                 CallGenerateCaringResponse 6000 RESPONSE_HYDRATION;
                 CallRecordUserIgnored RESPONSE_HYDRATION;
                 CallGenerateUrgentResponse 12000]).
  { repeat constructor. }
  split; [exact H|].
  exact (proj1 (catalog_is_immutable _ RESPONSE_HYDRATION bootedEngine H)).
Defined.

(** * The callers in the sketch *)

Lemma currentMood_generateCaringResponse now type e :
  currentMood (snd (generateCaringResponse now type e)) = currentMood e.
Proof. unfold generateCaringResponse. branches; reflexivity. Qed.

Lemma runConcernedMode_worried now sk :
  currentMood (personality sk) = MOOD_WORRIED ->
  runConcernedMode now false sk =
  mkSketch (snd (generateUrgentResponse now (personality sk))) (currentState sk)
    (lastReminderCheck sk) (spoken sk ++ [fst (generateUrgentResponse now (personality sk))]).
Proof.
  intros Hm. unfold runConcernedMode, getCurrentMood.
  rewrite decide_True by exact Hm.
  destruct (generateUrgentResponse now (personality sk)); reflexivity.
Qed.

(** X18.  In the concerned state, with a Worried mood and no response from
    the user, every update tick of [runConcernedMode] raises the care level
    one step until it is Worried and hands one string to the speaker,
    whatever the clock reads; the mood and the system state stay as they
    are.  So after [n] ticks the care level has gone up by [n] steps
    (stopping at Worried) and [n] strings have been spoken. *)
Theorem concerned_mode_escalates_every_tick times sk :
  currentMood (personality sk) = MOOD_WORRIED ->
  careInRange (personality sk) ->
  let sk' := concernedTicks times sk in
  careValue (personality sk') =
    Z.min (CareLevel_to_Z CARE_WORRIED)
      (careValue (personality sk) + Z.of_nat (length times)) /\
  length (spoken sk') = (length (spoken sk) + length times)%nat /\
  currentMood (personality sk') = MOOD_WORRIED /\
  currentState sk' = currentState sk.
Proof.
  unfold careInRange. simpl CareLevel_to_Z. cbv zeta.
  revert sk. induction times as [|now times IH]; intros sk Hm Hr.
  - unfold concernedTicks. simpl. repeat split; try lia; assumption.
  - change (concernedTicks (now :: times) sk)
      with (concernedTicks times (runConcernedMode now false sk)).
    rewrite (runConcernedMode_worried now sk Hm).
    set (sk1 := mkSketch _ _ _ _).
    assert (Hc1 : careValue (personality sk1) = Z.min 3 (careValue (personality sk) + 1)).
    { subst sk1. simpl personality. unfold generateUrgentResponse.
      rewrite careValue_generateCaringResponse, careValue_escalateCareLevel.
      destruct (_ <? 3) eqn:E; [apply Z.ltb_lt in E | apply Z.ltb_ge in E]; lia. }
    assert (Hm1 : currentMood (personality sk1) = MOOD_WORRIED).
    { subst sk1. simpl personality. unfold generateUrgentResponse.
      rewrite currentMood_generateCaringResponse, currentMood_escalateCareLevel. exact Hm. }
    destruct (IH sk1 Hm1 ltac:(lia)) as (IHc & IHs & IHm & IHst).
    rewrite IHc, IHs, IHm, IHst, Hc1. subst sk1. simpl spoken. simpl currentState.
    rewrite length_app. simpl length. rewrite Nat2Z.inj_succ.
    repeat split; try lia; reflexivity.
Qed.

Lemma concerned_mode_escalates_every_tick_witness :
  currentMood (personality concernedSketch) = MOOD_WORRIED /\
  careInRange (personality concernedSketch) /\
  careValue (personality (concernedTicks [100; 200; 300] concernedSketch))
  = Z.min (CareLevel_to_Z CARE_WORRIED)
      (careValue (personality concernedSketch) + Z.of_nat (length [100; 200; 300])).
Proof.
  assert (Hm : currentMood (personality concernedSketch) = MOOD_WORRIED)
    by (vm_compute; reflexivity).
  assert (Hr : careInRange (personality concernedSketch))
    by (vm_compute; split; discriminate).
  split; [exact Hm|]. split; [exact Hr|].
  exact (proj1 (concerned_mode_escalates_every_tick [100; 200; 300] concernedSketch Hm Hr)).
Defined.

(** X19.  [runCaringMode] always hands exactly one string to the speaker
    and returns the system to the ready state; while the engine cannot
    respond (responses disabled or cooldown running) that string is the
    empty string and the engine is unchanged. *)
Theorem runCaringMode_speaks_once now sk :
  let sk' := runCaringMode now sk in
  currentState sk' = SYSTEM_READY /\
  spoken sk' =
    spoken sk ++ [fst (generateCaringResponse now RESPONSE_ENCOURAGEMENT (personality sk))] /\
  (canRespondNow now (personality sk) = false ->
   spoken sk' = spoken sk ++ [EmptyString] /\ personality sk' = personality sk).
Proof.
  cbv zeta. unfold runCaringMode, generateCaringResponse_default.
  split; [|split].
  - destruct (generateCaringResponse _ _ _); reflexivity.
  - destruct (generateCaringResponse _ _ _); reflexivity.
  - intros Hcan. rewrite generateCaringResponse_cannot_respond by exact Hcan.
    split; reflexivity.
Qed.

Lemma runCaringMode_speaks_once_witness :
  canRespondNow 1000 (personality readySketch) = false /\
  spoken (runCaringMode 1000 readySketch) = [EmptyString].
Proof.
  assert (Hcan : canRespondNow 1000 (personality readySketch) = false)
    by (vm_compute; reflexivity).
  split; [exact Hcan|].
  exact (proj1 (proj2 (proj2 (runCaringMode_speaks_once 1000 readySketch)) Hcan)).
Defined.

Lemma checkScheduledReminders_due now (h m p : bool) sk :
  REMINDER_CHECK_INTERVAL < ulong_sub now (lastReminderCheck sk) ->
  checkScheduledReminders now h m p sk =
  with_lastReminderCheck now
    (with_personality (queueAll (dueTexts h m p) (personality sk)) sk).
Proof.
  intros Hdue. apply Z.ltb_lt in Hdue. unfold checkScheduledReminders. rewrite Hdue.
  destruct h, m, p; reflexivity.
Qed.

Lemma dueTexts_length (h m p : bool) : (length (dueTexts h m p) <= 3)%nat.
Proof. destruct h, m, p; simpl; lia. Qed.

Lemma speakQueuedMessage_front message rest sk :
  messageQueue (personality sk) = message :: rest ->
  speakQueuedMessage sk =
  mkSketch (set_messageQueue rest (personality sk)) (currentState sk)
    (lastReminderCheck sk) (spoken sk ++ [message]).
Proof.
  intros Hq. unfold speakQueuedMessage, hasQueuedMessage, getNextMessage.
  rewrite Hq. rewrite bool_decide_eq_false_2 by discriminate. reflexivity.
Qed.

Lemma speakQueuedMessage_empty sk :
  messageQueue (personality sk) = [] -> speakQueuedMessage sk = sk.
Proof.
  intros Hq. unfold speakQueuedMessage, hasQueuedMessage.
  rewrite Hq. reflexivity.
Qed.

Lemma speakQueuedMessage_drain : forall queue n sk,
  messageQueue (personality sk) = queue ->
  (length queue <= n)%nat ->
  Nat.iter n speakQueuedMessage sk =
  mkSketch (set_messageQueue [] (personality sk)) (currentState sk)
    (lastReminderCheck sk) (spoken sk ++ queue).
Proof.
  induction queue as [|m rest IH]; intros n sk Hq Hn.
  - rewrite app_nil_r.
    assert (Hfix : forall k s, messageQueue (personality s) = [] ->
                               Nat.iter k speakQueuedMessage s = s).
    { induction k as [|k IHk]; intros s Hs; [reflexivity|].
      simpl. rewrite IHk by exact Hs. apply speakQueuedMessage_empty, Hs. }
    rewrite Hfix by exact Hq. destruct sk as [p st l sp]. simpl in *.
    rewrite <- Hq. destruct p; reflexivity.
  - destruct n as [|n]; [simpl in Hn; lia|].
    rewrite Nat.iter_succ_r, (speakQueuedMessage_front m rest sk Hq).
    rewrite (IH n) by (simpl in *; reflexivity || lia).
    simpl. rewrite <- app_assoc. reflexivity.
Qed.

(** X20.  A reminder check made more than 60 s after the previous one, on an
    empty queue, queues the texts of the reminders that are due in the order
    hydration, movement, posture, and the next three passes of the queue
    service speak exactly those texts in that order and leave the queue
    empty.  A check made within 60 s of the previous one does nothing. *)
Theorem reminders_are_spoken_in_order now hydrationDue movementDue postureDue sk :
  messageQueue (personality sk) = [] ->
  let checked := checkScheduledReminders now hydrationDue movementDue postureDue sk in
  (REMINDER_CHECK_INTERVAL < ulong_sub now (lastReminderCheck sk) ->
   messageQueue (personality checked) = dueTexts hydrationDue movementDue postureDue /\
   lastReminderCheck checked = now /\
   spoken (Nat.iter 3 speakQueuedMessage checked) =
     spoken sk ++ dueTexts hydrationDue movementDue postureDue /\
   messageQueue (personality (Nat.iter 3 speakQueuedMessage checked)) = []) /\
  (ulong_sub now (lastReminderCheck sk) <= REMINDER_CHECK_INTERVAL -> checked = sk).
Proof.
  intros Hq. cbv zeta. split.
  - intros Hdue. rewrite checkScheduledReminders_due by exact Hdue.
    pose proof (dueTexts_length hydrationDue movementDue postureDue) as Hlen.
    set (texts := dueTexts hydrationDue movementDue postureDue) in *.
    assert (Hqueued : messageQueue (queueAll texts (personality sk)) = texts).
    { rewrite queueAll_room by (rewrite Hq; simpl; lia). simpl. rewrite Hq. reflexivity. }
    split; [exact Hqueued|]. split; [reflexivity|].
    rewrite (speakQueuedMessage_drain texts 3) by (assumption || exact Hlen).
    split; reflexivity.
  - intros Hnear. apply Z.ltb_ge in Hnear. unfold checkScheduledReminders.
    rewrite Hnear. reflexivity.
Qed.

Lemma reminders_are_spoken_in_order_witness :
  messageQueue (personality readySketch) = [] /\
  REMINDER_CHECK_INTERVAL < ulong_sub 61000 (lastReminderCheck readySketch) /\
  spoken (Nat.iter 3 speakQueuedMessage
            (checkScheduledReminders 61000 true false true readySketch))
  = spoken readySketch ++ dueTexts true false true.
Proof.
  assert (Hq : messageQueue (personality readySketch) = []) by reflexivity.
  assert (Hdue : REMINDER_CHECK_INTERVAL < ulong_sub 61000 (lastReminderCheck readySketch))
    by (vm_compute; reflexivity).
  split; [exact Hq|]. split; [exact Hdue|].
  exact (proj1 (proj2 (proj2 (proj1
    (reminders_are_spoken_in_order 61000 true false true readySketch Hq) Hdue)))).
Defined.
